(** * Node bootstrap of the SDK: auth parameters and genesis utilities

    A shallow embedding of
    - [x/auth/types/params.go]: the auth module's parameter set and its
      validation, and
    - [x/genutil/utils.go]: genesis export and the provisioning of the node's
      transport and consensus identities,
    together with the properties the specification states about them. *)

From Stdlib Require Import ZArith NArith Lia Ascii String DecimalString.
From stdpp Require Import base option gmap strings list.

Local Open Scope string_scope.

(** ** x/auth/types/params.go *)

Module Auth.

(** A [uint64] is a natural number below [2^64]; none of the functions of this
    file does arithmetic that could wrap. *)
Definition uint64 := N.

(** The dynamic values the [interface{}] argument of a validator can hold:
    the [uint64] every validator expects, and representatives of the other
    dynamic types, which the type assertion [i.(uint64)] rejects. *)
Inductive iface : Type :=
| IUint64 (v : uint64)
| IInt64 (v : Z)
| IString (s : string)
| IBool (b : bool)
| INil.

(** [%T]: the name of the dynamic type. *)
Definition type_name (i : iface) : string :=
  match i with
  | IUint64 _ => "uint64"
  | IInt64 _ => "int64"
  | IString _ => "string"
  | IBool _ => "bool"
  | INil => "<nil>"
  end.

(** [%d] on a [uint64]. *)
Definition fmt_d (v : uint64) : string := NilZero.string_of_uint (N.to_uint v).

(** A Go [error] is [None] for [nil] and [Some msg] for an error value with
    message [msg]. *)
Definition error := option string.

Definition DefaultMaxMemoCharacters : uint64 := 20971520%N.
Definition DefaultTxSigLimit : uint64 := 7%N.
Definition DefaultTxSizeCostPerByte : uint64 := 10%N.
Definition DefaultSigVerifyCostED25519 : uint64 := 590%N.
Definition DefaultSigVerifyCostSecp256k1 : uint64 := 1000%N.
Definition DefaultSigVerifyCostSm2 : uint64 := 7850%N.

Record Params : Type := NewParams {
  MaxMemoCharacters : uint64;
  TxSigLimit : uint64;
  TxSizeCostPerByte : uint64;
  SigVerifyCostED25519 : uint64;
  SigVerifyCostSecp256k1 : uint64;
  SigVerifyCostSm2 : uint64
}.

Definition DefaultParams : Params := {|
  MaxMemoCharacters := DefaultMaxMemoCharacters;
  TxSigLimit := DefaultTxSigLimit;
  TxSizeCostPerByte := DefaultTxSizeCostPerByte;
  SigVerifyCostED25519 := DefaultSigVerifyCostED25519;
  SigVerifyCostSecp256k1 := DefaultSigVerifyCostSecp256k1;
  SigVerifyCostSm2 := DefaultSigVerifyCostSm2
|}.

Definition SigVerifyCostSecp256r1 (p : Params) : uint64 :=
  (SigVerifyCostSecp256k1 p / 2)%N.

Definition validateTxSigLimit (i : iface) : error :=
  match i with
  | IUint64 v =>
      if (v =? 0)%N then Some ("invalid tx signature limit: " +:+ fmt_d v)
      else None
  | _ => Some ("invalid parameter type: " +:+ type_name i)
  end.

Definition validateSigVerifyCostED25519 (i : iface) : error :=
  match i with
  | IUint64 v =>
      if (v =? 0)%N
      then Some ("invalid ED25519 signature verification cost: " +:+ fmt_d v)
      else None
  | _ => Some ("invalid parameter type: " +:+ type_name i)
  end.

Definition validateSigVerifyCostSecp256k1 (i : iface) : error :=
  match i with
  | IUint64 v =>
      if (v =? 0)%N
      then Some ("invalid SECK256k1 signature verification cost: " +:+ fmt_d v)
      else None
  | _ => Some ("invalid parameter type: " +:+ type_name i)
  end.

Definition validateSigVerifyCostSm2 (i : iface) : error :=
  match i with
  | IUint64 v =>
      if (v =? 0)%N
      then Some ("invalid Sm2 signature verification cost: " +:+ fmt_d v)
      else None
  | _ => Some ("invalid parameter type: " +:+ type_name i)
  end.

Definition validateMaxMemoCharacters (i : iface) : error :=
  match i with
  | IUint64 v =>
      if (v =? 0)%N then Some ("invalid max memo characters: " +:+ fmt_d v)
      else None
  | _ => Some ("invalid parameter type: " +:+ type_name i)
  end.

Definition validateTxSizeCostPerByte (i : iface) : error :=
  match i with
  | IUint64 v =>
      if (v =? 0)%N then Some ("invalid tx size cost per byte: " +:+ fmt_d v)
      else None
  | _ => Some ("invalid parameter type: " +:+ type_name i)
  end.

(** [if err := f(x); err != nil { return err }; rest]. *)
Definition check (e : error) (rest : error) : error :=
  match e with
  | Some msg => Some msg
  | None => rest
  end.

Definition Validate (p : Params) : error :=
  check (validateTxSigLimit (IUint64 (TxSigLimit p)))
  (check (validateSigVerifyCostED25519 (IUint64 (SigVerifyCostED25519 p)))
  (check (validateSigVerifyCostSecp256k1 (IUint64 (SigVerifyCostSecp256k1 p)))
  (check (validateSigVerifyCostSm2 (IUint64 (SigVerifyCostSm2 p)))
  (check (validateMaxMemoCharacters (IUint64 (MaxMemoCharacters p)))
  (check (validateTxSizeCostPerByte (IUint64 (TxSizeCostPerByte p)))
   None))))).

(** The six per-field validators, in the order of [ParamSetPairs]. *)
Definition validators : list (iface -> error) :=
  [ validateMaxMemoCharacters; validateTxSigLimit; validateTxSizeCostPerByte;
    validateSigVerifyCostED25519; validateSigVerifyCostSecp256k1;
    validateSigVerifyCostSm2 ].

(** A validator returns nil on a [uint64] exactly when it is not zero. *)
Definition rejects_exactly_zero (f : iface -> error) : Prop :=
  forall v : uint64, f (IUint64 v) = None <-> v <> 0%N.

(** Parameter keys, [[]byte("...")]. *)
Definition KeyMaxMemoCharacters : string := "MaxMemoCharacters".
Definition KeyTxSigLimit : string := "TxSigLimit".
Definition KeyTxSizeCostPerByte : string := "TxSizeCostPerByte".
Definition KeySigVerifyCostED25519 : string := "SigVerifyCostED25519".
Definition KeySigVerifyCostSecp256k1 : string := "SigVerifyCostSecp256k1".
Definition KeySigVerifyCostSm2 : string := "SigVerifyCostSm2".

(** [paramtypes.ParamSetPair]: the key, the storage slot (a pointer to the
    field; here the value the slot holds, which is what the parameter store
    hands to the validator) and the validator. *)
Record ParamSetPair : Type := NewParamSetPair {
  Key : string;
  Value : iface;
  ValidatorFn : iface -> error
}.

Definition ParamSetPairs (p : Params) : list ParamSetPair :=
  [ NewParamSetPair KeyMaxMemoCharacters (IUint64 (MaxMemoCharacters p))
      validateMaxMemoCharacters;
    NewParamSetPair KeyTxSigLimit (IUint64 (TxSigLimit p)) validateTxSigLimit;
    NewParamSetPair KeyTxSizeCostPerByte (IUint64 (TxSizeCostPerByte p))
      validateTxSizeCostPerByte;
    NewParamSetPair KeySigVerifyCostED25519 (IUint64 (SigVerifyCostED25519 p))
      validateSigVerifyCostED25519;
    NewParamSetPair KeySigVerifyCostSecp256k1
      (IUint64 (SigVerifyCostSecp256k1 p)) validateSigVerifyCostSecp256k1;
    NewParamSetPair KeySigVerifyCostSm2 (IUint64 (SigVerifyCostSm2 p))
      validateSigVerifyCostSm2 ].

(** The message of the first pair whose value is zero, if any. *)
Fixpoint first_zero (checks : list (uint64 * string)) : error :=
  match checks with
  | [] => None
  | (v, msg) :: rest => if (v =? 0)%N then Some msg else first_zero rest
  end.

End Auth.

(** ** x/genutil/utils.go *)

Module Genutil.

(** *** Data *)

(** Raw bytes. A Go [string] is a byte sequence and [[]byte(s)] keeps the
    bytes, so both are [string] here. *)
Definition bytes := string.

Definition crypto_PrivKey := bytes.
Definition crypto_PubKey := bytes.
Definition crypto_Address := bytes.
(** [cryptotypes.PubKey], the SDK's own representation of a public key. *)
Definition cryptotypes_PubKey := bytes.

(** [time.Time] as the nanoseconds elapsed since the zero time: the zero
    value is [0]. *)
Definition Time := Z.
Definition Time_IsZero (t : Time) : bool := (t =? 0)%Z.

(** [tmtypes.GenesisValidator]. *)
Record GenesisValidator : Type := {
  Address : crypto_Address;
  PubKey : crypto_PubKey;
  Power : Z;
  Name : string
}.

(** [tmtypes.GenesisDoc], with the four fields [ExportGenesisFileWithTime]
    sets. *)
Record GenesisDoc : Type := {
  GenesisTime : Time;
  ChainID : string;
  Validators : list GenesisValidator;
  AppState : bytes
}.

(** [p2p.NodeKey]. *)
Record NodeKey : Type := { PrivKey : crypto_PrivKey }.

(** [privval.FilePVKey], [privval.FilePVLastSignState] and [privval.FilePV]. *)
Record FilePVKey : Type := {
  Key_Address : crypto_Address;
  Key_PubKey : crypto_PubKey;
  Key_PrivKey : crypto_PrivKey;
  Key_filePath : string
}.

Record FilePVLastSignState : Type := {
  Height : Z;
  Round : Z;
  Step : Z;
  State_filePath : string
}.

Record FilePV : Type := {
  Key : FilePVKey;
  LastSignState : FilePVLastSignState
}.

Definition stepNone : Z := 0.

(** The octal literal [0777]: read, write and search for owner, group and
    others. *)
Definition mode_0777 : Z := 0x1ff.

(** [cfg.Config], reduced to the three paths the file asks it for. *)
Record Config : Type := {
  NodeKeyFile : string;
  PrivValidatorKeyFile : string;
  PrivValidatorStateFile : string
}.

(** What a file on disk holds: the serialized form of one of the artifacts
    above, or bytes that parse as none of them. *)
Inductive File : Type :=
| NodeKeyJSON (priv : crypto_PrivKey)
| FilePVKeyJSON (addr : crypto_Address) (pub : crypto_PubKey)
    (priv : crypto_PrivKey)
| LastSignStateJSON (height round step : Z)
| GenesisJSON (doc : GenesisDoc)
| Unparseable (raw : bytes).

(** The calls that change the filesystem, as issued. *)
Inductive Event : Type :=
| EvMkdirAll (dir : string) (perm : Z)
| EvWriteFile (path : string) (content : File).

(** Errors. [InvalidMnemonic] is [fmt.Errorf("invalid mnemonic")]; the others
    are the collaborators' errors, by the kinds the specification names. *)
Inductive error : Type :=
| InvalidMnemonic
| FilesystemFailure (path : string)
| CorruptIdentityFile (path : string)
| EntropyExhausted
| UnsupportedPubKey
| EmptyChainID
| InvalidValidatorPower
| DuplicateValidator.

(** *** The world and the monad of effects *)

(** The state the code runs in: regular files, directories with their
    permission bits, the paths the process may neither create nor write
    (a path is denied by the existing directory that would hold it), the
    process's umask, the keys the secure random source will hand out, the
    wall clock, and the log of filesystem calls (latest first). *)
Record World : Type := {
  files : gmap string File;
  dirs : gmap string Z;
  denied : gset string;
  umask : Z;
  entropy : list crypto_PrivKey;
  clock : Time;
  trace : list Event
}.

(** How a call ends: it returns a value, it returns an error, or the process
    stops inside a collaborator that has no error result (a panic or an
    exit). *)
Inductive Outcome (A : Type) : Type :=
| Return (a : A)
| Fail (e : error)
| Fatal (e : error).
Arguments Return {A} a.
Arguments Fail {A} e.
Arguments Fatal {A} e.

Definition M (A : Type) : Type := World -> Outcome A * World.

Definition ret {A} (a : A) : M A := fun w => (Return a, w).
Definition fail {A} (e : error) : M A := fun w => (Fail e, w).
Definition fatal {A} (e : error) : M A := fun w => (Fatal e, w).

Definition bind {A B} (m : M A) (k : A -> M B) : M B :=
  fun w =>
    match m w with
    | (Return a, w') => k a w'
    | (Fail e, w') => (Fail e, w')
    | (Fatal e, w') => (Fatal e, w')
    end.

(** A collaborator without an error result: an error inside it stops the
    process. *)
Definition must {A} (m : M A) : M A :=
  fun w =>
    match m w with
    | (Fail e, w') => (Fatal e, w')
    | r => r
    end.

Declare Scope go_scope.
Delimit Scope go_scope with go.
Notation "x <- m ;; k" := (bind m (fun x => k))
  (at level 100, m at next level, right associativity) : go_scope.
Notation "m ;;; k" := (bind m (fun _ => k))
  (at level 100, right associativity) : go_scope.
Local Open Scope go_scope.

Definition set_files (f : gmap string File) (w : World) : World :=
  {| files := f; dirs := dirs w; denied := denied w; umask := umask w;
     entropy := entropy w; clock := clock w; trace := trace w |}.
Definition set_dirs (d : gmap string Z) (w : World) : World :=
  {| files := files w; dirs := d; denied := denied w; umask := umask w;
     entropy := entropy w; clock := clock w; trace := trace w |}.
Definition set_entropy (e : list crypto_PrivKey) (w : World) : World :=
  {| files := files w; dirs := dirs w; denied := denied w; umask := umask w;
     entropy := e; clock := clock w; trace := trace w |}.
Definition log (ev : Event) (w : World) : World :=
  {| files := files w; dirs := dirs w; denied := denied w; umask := umask w;
     entropy := entropy w; clock := clock w; trace := ev :: trace w |}.

(** The outcome is a value or an error other than [e]. *)
Definition not_error {A} (e : error) (r : Outcome A) : Prop :=
  r <> Fail e /\ r <> Fatal e.

(** *** The collaborators

    [utils.go] is glue over the consensus engine's and the crypto library's
    functions, none of which is part of this repository. The pure ones are
    taken as an interface. *)

Class Collaborators : Type := {
  (** [bip39.IsMnemonicValid]: the wordlist and checksum test. *)
  IsMnemonicValid : string -> bool;
  (** [algo.GenPrivKeyFromSecret]: the key derived from secret bytes. *)
  GenPrivKeyFromSecret : bytes -> crypto_PrivKey;
  (** [privKey.PubKey()]. *)
  PrivKey_PubKey : crypto_PrivKey -> crypto_PubKey;
  (** [pubKey.Address()]. *)
  PubKey_Address : crypto_PubKey -> crypto_Address;
  (** [p2p.PubKeyToID]: the node identifier of a public key. *)
  PubKeyToID : crypto_PubKey -> string;
  (** [cryptocodec.FromTmPubKeyInterface]: the SDK's form of a consensus
      public key, [None] when it returns an error. *)
  FromTmPubKeyInterface : crypto_PubKey -> option cryptotypes_PubKey;
  (** [filepath.Dir]. *)
  filepath_Dir : string -> string
}.

Section WithCollaborators.
Context `{Collaborators}.

(** *** Filesystem, random source and clock *)

(** Modelled from the spec: the operating system's file calls are not part of
    the sources. A write needs its containing directory to exist and the path
    not to be denied ("filesystem permission failures"); it replaces what the
    path held. Every call is logged, also one that fails. *)
Definition WriteFile (path : string) (content : File) : M unit :=
  fun w =>
    let w := log (EvWriteFile path content) w in
    if bool_decide (path ∈ denied w) || bool_decide (dirs w !! filepath_Dir path = None)
    then (Fail (FilesystemFailure path), w)
    else (Return tt, set_files (<[path := content]> (files w)) w).

(** Modelled from the spec: [tmos.FileExists] is not part of the sources. *)
Definition FileExists (path : string) : M bool :=
  fun w => (Return (bool_decide (is_Some (files w !! path))), w).

(** Modelled from the spec: [os.Mkdir] is not part of the sources. The new
    directory gets the permission bits of the mode asked for that the
    process's umask leaves. *)
Definition Mkdir (path : string) (perm : Z) : M unit :=
  fun w =>
    (Return tt,
     set_dirs (<[path := Z.land perm (Z.lnot (umask w))]> (dirs w)) w).

(** Modelled from the spec: [os.MkdirAll] is not part of the sources. Nothing
    changes when the directory is there; otherwise the missing parents are
    created first, then the directory, all with the mode asked for. It fails
    when a regular file has the name of a directory to create or the path
    is denied ("directory-creation failures"); a denied path lies in an
    existing directory, so a call that fails has created nothing. [fuel]
    bounds the walk up the parents, which ends where [filepath.Dir] gives
    the path back. *)
Fixpoint MkdirAll (fuel : nat) (path : string) (perm : Z) : M unit :=
  fun w =>
    match dirs w !! path with
    | Some _ => (Return tt, w)
    | None =>
        if bool_decide (path ∈ denied w)
           || bool_decide (is_Some (files w !! path))
        then (Fail (FilesystemFailure path), w)
        else
          match fuel with
          | S fuel' =>
              let parent := filepath_Dir path in
              if bool_decide (parent = path) then Mkdir path perm w
              else (MkdirAll fuel' parent perm ;;; Mkdir path perm) w
          | O => Mkdir path perm w
          end
    end.

(** Modelled from the spec: [tmos.EnsureDir] is not part of the sources.
    "Ensure the containing directory exists (create with restrictive
    permissions if missing)": it is [os.MkdirAll] with the mode the caller
    passes, whatever that mode is, and its error names the directory asked
    for. A path has fewer parents than characters. *)
Definition EnsureDir (dir : string) (mode : Z) : M unit :=
  fun w =>
    let w := log (EvMkdirAll dir mode) w in
    match MkdirAll (String.length dir) dir mode w with
    | (Fail _, w') => (Fail (FilesystemFailure dir), w')
    | r => r
    end.

(** Modelled from the spec: the random key generator of the crypto library
    is not part of the sources. [generateRandom] draws the next key of the
    secure random source; exhausting it is fatal. *)
Definition GenPrivKey : M crypto_PrivKey :=
  fun w =>
    match entropy w with
    | k :: rest => (Return k, set_entropy rest w)
    | [] => (Fatal EntropyExhausted, w)
    end.

(** Modelled from the spec: [tmtime.Now] is not part of the sources; it reads
    the wall clock. *)
Definition tmtime_Now : M Time := fun w => (Return (clock w), w).

(** *** Transport identity: [p2p.NodeKey] *)

(** [nodeKey.ID()]. *)
Definition NodeKey_ID (nodeKey : NodeKey) : string :=
  PubKeyToID (PrivKey_PubKey (PrivKey nodeKey)).

(** Modelled from the spec: [NodeKey.SaveAs] is not part of the sources. It
    persists the key at the path. *)
Definition NodeKey_SaveAs (nodeKey : NodeKey) (filePath : string) : M unit :=
  WriteFile filePath (NodeKeyJSON (PrivKey nodeKey)).

(** Modelled from the spec: [p2p.LoadNodeKey] is not part of the sources.
    "Corrupt existing key files (unparseable bytes)" are an error. *)
Definition LoadNodeKey (filePath : string) : M NodeKey :=
  fun w =>
    match files w !! filePath with
    | Some (NodeKeyJSON priv) => (Return {| PrivKey := priv |}, w)
    | Some _ => (Fail (CorruptIdentityFile filePath), w)
    | None => (Fail (FilesystemFailure filePath), w)
    end.

(** Modelled from the spec: [p2p.LoadOrGenNodeKey] is not part of the
    sources. "If a key file already exists at path, load and return it
    unchanged ... If no file exists, call deriveFn" (here the random
    generator) "to obtain a key pair, then persist it." *)
Definition LoadOrGenNodeKey (filePath : string) : M NodeKey :=
  exists_ <- FileExists filePath ;;
  if (exists_ : bool) then LoadNodeKey filePath
  else
    privKey <- GenPrivKey ;;
    let nodeKey := {| PrivKey := privKey |} in
    NodeKey_SaveAs nodeKey filePath ;;;
    ret nodeKey.

(** *** Consensus identity: [privval.FilePV] *)

(** Modelled from the spec: [privval.NewFilePV] is not part of the sources.
    The key with its public key and address, and the initial signing state:
    "last-signed height = 0, no rounds". *)
Definition NewFilePV (privKey : crypto_PrivKey)
    (keyFilePath stateFilePath : string) : FilePV :=
  {| Key := {| Key_Address := PubKey_Address (PrivKey_PubKey privKey);
               Key_PubKey := PrivKey_PubKey privKey;
               Key_PrivKey := privKey;
               Key_filePath := keyFilePath |};
     LastSignState := {| Height := 0; Round := 0; Step := stepNone;
                         State_filePath := stateFilePath |} |}.

Definition FilePVKey_file (k : FilePVKey) : File :=
  FilePVKeyJSON (Key_Address k) (Key_PubKey k) (Key_PrivKey k).

Definition LastSignState_file (s : FilePVLastSignState) : File :=
  LastSignStateJSON (Height s) (Round s) (Step s).

(** Modelled from the spec: [FilePV.Save] is not part of the sources. It
    persists the "two separate artifacts (key material, mutable
    signing-state)", the key first. It has no error result. *)
Definition FilePV_Save (pv : FilePV) : M unit :=
  must (WriteFile (Key_filePath (Key pv)) (FilePVKey_file (Key pv))) ;;;
  must (WriteFile (State_filePath (LastSignState pv))
          (LastSignState_file (LastSignState pv))).

(** Modelled from the spec: [privval.LoadFilePV] is not part of the sources.
    It reads the key and the signing state as they are stored and writes
    nothing. It has no error result. *)
Definition LoadFilePV (keyFilePath stateFilePath : string) : M FilePV :=
  fun w =>
    match files w !! keyFilePath with
    | Some (FilePVKeyJSON addr pub priv) =>
        match files w !! stateFilePath with
        | Some (LastSignStateJSON height round step) =>
            (Return
               {| Key := {| Key_Address := addr; Key_PubKey := pub;
                            Key_PrivKey := priv;
                            Key_filePath := keyFilePath |};
                  LastSignState := {| Height := height; Round := round;
                                      Step := step;
                                      State_filePath := stateFilePath |} |},
             w)
        | Some _ => (Fatal (CorruptIdentityFile stateFilePath), w)
        | None => (Fatal (FilesystemFailure stateFilePath), w)
        end
    | Some _ => (Fatal (CorruptIdentityFile keyFilePath), w)
    | None => (Fatal (FilesystemFailure keyFilePath), w)
    end.

(** Modelled from the spec: [privval.LoadOrGenFilePV] is not part of the
    sources. Load when the key file exists, "if the key already existed, the
    existing signing-state is left untouched"; otherwise generate a random
    key, initialize the signing state and persist both. *)
Definition LoadOrGenFilePV (keyFilePath stateFilePath : string) : M FilePV :=
  exists_ <- FileExists keyFilePath ;;
  if (exists_ : bool) then LoadFilePV keyFilePath stateFilePath
  else
    privKey <- GenPrivKey ;;
    let pv := NewFilePV privKey keyFilePath stateFilePath in
    FilePV_Save pv ;;;
    ret pv.

(** [filePV.GetPubKey()]: the stored public key; its error is always nil. *)
Definition FilePV_GetPubKey (pv : FilePV) : M crypto_PubKey :=
  ret (Key_PubKey (Key pv)).

(** [cryptocodec.FromTmPubKeyInterface] with its error result. *)
Definition cryptocodec_FromTmPubKeyInterface (pk : crypto_PubKey)
    : M cryptotypes_PubKey :=
  match FromTmPubKeyInterface pk with
  | Some k => ret k
  | None => fail UnsupportedPubKey
  end.

(** *** Genesis document: [tmtypes.GenesisDoc] *)

(** Modelled from the spec: the validation of the validator set is part of
    [GenesisDoc.ValidateAndComplete], which is not part of the sources. The
    validators in order, "each checked for power and uniqueness"; [seen]
    holds the public keys of the validators already checked. *)
Fixpoint validateValidators (seen : list crypto_PubKey)
    (vs : list GenesisValidator) : option error :=
  match vs with
  | [] => None
  | v :: rest =>
      if (Power v <=? 0)%Z then Some InvalidValidatorPower
      else if bool_decide (PubKey v ∈ seen) then Some DuplicateValidator
      else validateValidators (PubKey v :: seen) rest
  end.

(** Modelled from the spec: [GenesisDoc.ValidateAndComplete] is not part of
    the sources. "Fills timestamp with the current time if the caller left it
    unset, and fails with EmptyChainID if chainId is empty, with
    InvalidValidatorPower if any validator has non-positive voting power, and
    with DuplicateValidator if the same public key appears twice. Validation
    order: chain id, then validators (each checked for power and
    uniqueness); nothing else is checked about appState." The result is the
    completed document. *)
Definition ValidateAndComplete (genDoc : GenesisDoc) : M GenesisDoc :=
  if bool_decide (ChainID genDoc = "") then fail EmptyChainID
  else
    match validateValidators [] (Validators genDoc) with
    | Some e => fail e
    | None =>
        if Time_IsZero (GenesisTime genDoc) then
          now <- tmtime_Now ;;
          ret {| GenesisTime := now; ChainID := ChainID genDoc;
                 Validators := Validators genDoc;
                 AppState := AppState genDoc |}
        else ret genDoc
    end.

(** Modelled from the spec: [GenesisDoc.SaveAs] is not part of the sources.
    The document is serialized and written as a whole; "if a file already
    exists at the target path it is overwritten". *)
Definition GenesisDoc_SaveAs (genDoc : GenesisDoc) (file : string) : M unit :=
  WriteFile file (GenesisJSON genDoc).

(** *** The functions of [utils.go] *)

(** [ValidateAndComplete] completes the caller's document in place and
    [SaveAs] writes the completed one. *)
Definition ExportGenesisFile (genDoc : GenesisDoc) (genFile : string)
    : M unit :=
  genDoc <- ValidateAndComplete genDoc ;;
  GenesisDoc_SaveAs genDoc genFile.

Definition ExportGenesisFileWithTime (genFile chainID : string)
    (validators : list GenesisValidator) (appState : bytes) (genTime : Time)
    : M unit :=
  let genDoc := {| GenesisTime := genTime; ChainID := chainID;
                   Validators := validators; AppState := appState |} in
  genDoc <- ValidateAndComplete genDoc ;;
  GenesisDoc_SaveAs genDoc genFile.

(** The result is [(nodeID, valPubKey)]; every error return of the source is
    [("", nil, err)], here [Fail err]. *)
Definition InitializeNodeValidatorFilesFromMnemonic (config : Config)
    (mnemonic : string) : M (string * cryptotypes_PubKey) :=
  if (0 <? String.length mnemonic)%nat && negb (IsMnemonicValid mnemonic)
  then fail InvalidMnemonic
  else
    nodeKey <-
      (if (String.length mnemonic =? 0)%nat then
         LoadOrGenNodeKey (NodeKeyFile config)
       else
         let privKey := GenPrivKeyFromSecret mnemonic in
         let nodeKey := {| PrivKey := privKey |} in
         NodeKey_SaveAs nodeKey (NodeKeyFile config) ;;;
         ret nodeKey) ;;
    let nodeID := NodeKey_ID nodeKey in
    let pvKeyFile := PrivValidatorKeyFile config in
    EnsureDir (filepath_Dir pvKeyFile) mode_0777 ;;;
    let pvStateFile := PrivValidatorStateFile config in
    EnsureDir (filepath_Dir pvStateFile) mode_0777 ;;;
    filePV <-
      (if (String.length mnemonic =? 0)%nat then
         LoadOrGenFilePV pvKeyFile pvStateFile
       else
         let privKey := GenPrivKeyFromSecret mnemonic in
         let filePV := NewFilePV privKey pvKeyFile pvStateFile in
         FilePV_Save filePV ;;;
         ret filePV) ;;
    tmValPubKey <- FilePV_GetPubKey filePV ;;
    valPubKey <- cryptocodec_FromTmPubKeyInterface tmValPubKey ;;
    ret (nodeID, valPubKey).

Definition InitializeNodeValidatorFiles (config : Config)
    : M (string * cryptotypes_PubKey) :=
  InitializeNodeValidatorFilesFromMnemonic config "".

End WithCollaborators.

End Genutil.

(** ** Vocabulary of the specification *)

Module Spec.
Import Genutil.

(** Permission bits that give nothing to the group and to others, as in
    [0700] or [0600]. *)
Definition restrictive (perm : Z) : Prop := Z.land perm 0x3f = 0%Z.

(** A call that writes the validator key or the signing state. *)
Definition validator_write (ev : Event) : Prop :=
  match ev with
  | EvWriteFile _ (FilePVKeyJSON _ _ _) => True
  | EvWriteFile _ (LastSignStateJSON _ _ _) => True
  | _ => False
  end.

(** In a log of calls, latest first: every write of a validator file comes
    after the two calls [first] and [second]. *)
Fixpoint ensured_before (first second : Event) (calls : list Event) : Prop :=
  match calls with
  | [] => True
  | ev :: earlier =>
      (validator_write ev -> first ∈ earlier /\ second ∈ earlier) /\
      ensured_before first second earlier
  end.

(** The signing state a new consensus key starts with. *)
Definition initial_sign_state : File := LastSignStateJSON 0 0 stepNone.

(** The validator key file of a private key. *)
Definition validator_key_file `{Collaborators} (k : crypto_PrivKey) : File :=
  FilePVKeyJSON (PubKey_Address (PrivKey_PubKey k)) (PrivKey_PubKey k) k.

(** Both identity files are on disk. *)
Definition provisioned (config : Config) (w : World) : Prop :=
  is_Some (files w !! NodeKeyFile config) /\
  is_Some (files w !! PrivValidatorKeyFile config).

(** The three identity files have three different paths. *)
Definition distinct_paths (config : Config) : Prop :=
  NodeKeyFile config <> PrivValidatorKeyFile config /\
  NodeKeyFile config <> PrivValidatorStateFile config /\
  PrivValidatorKeyFile config <> PrivValidatorStateFile config.

(** The identity files hold what they held before. *)
Definition identity_kept (config : Config) (w w' : World) : Prop :=
  files w' !! NodeKeyFile config = files w !! NodeKeyFile config /\
  files w' !! PrivValidatorKeyFile config =
    files w !! PrivValidatorKeyFile config.

End Spec.

(** ** A small instance of the collaborators

    Stand-ins that compute, to run the functions on concrete inputs: the
    phrases accepted are two of the BIP-39 test vectors, the key of a secret
    spells the secret out, and [Dir] cuts a clean path at its last slash. *)

Module Sample.
Import Genutil.

Definition mnemonic1 : string :=
  "abandon abandon abandon abandon abandon abandon abandon abandon abandon abandon abandon about".
Definition mnemonic2 : string :=
  "legal winner thank year wave sausage worth useful legal winner thank yellow".

Fixpoint before_last_slash (s : string) : option string :=
  match s with
  | EmptyString => None
  | String c rest =>
      match before_last_slash rest with
      | Some d => Some (String c d)
      | None => if Ascii.eqb c "/"%char then Some EmptyString else None
      end
  end.

Definition Dir (path : string) : string :=
  match before_last_slash path with
  | Some EmptyString => "/"
  | Some d => d
  | None => "."
  end.

Definition collaborators : Collaborators := {|
  IsMnemonicValid := fun m => bool_decide (m = mnemonic1 \/ m = mnemonic2);
  GenPrivKeyFromSecret := fun secret => "priv:" +:+ secret;
  PrivKey_PubKey := fun k => "pub:" +:+ k;
  PubKey_Address := fun pk => "addr:" +:+ pk;
  PubKeyToID := fun pk => "id:" +:+ pk;
  FromTmPubKeyInterface := fun pk => Some pk;
  filepath_Dir := Dir
|}.

Definition config : Config := {|
  NodeKeyFile := "/node/config/node_key.json";
  PrivValidatorKeyFile := "/node/config/priv_validator_key.json";
  PrivValidatorStateFile := "/node/data/priv_validator_state.json"
|}.

(** A node directory before the first boot: the configuration directory is
    there, the data directory is not; directories are [0755] and the umask
    is the usual [022]. *)
Definition fresh : World := {|
  files := ∅;
  dirs := {[ "/" := 0x1ed%Z; "/node" := 0x1ed%Z; "/node/config" := 0x1ed%Z ]};
  denied := ∅;
  umask := 0x12%Z;
  entropy := ["random-key-1"; "random-key-2"];
  clock := 1700000000000000000%Z;
  trace := []
|}.

(** A node that has been running: both identities are on disk and the
    validator has signed up to height 42. *)
Definition running : World := {|
  files := {[ "/node/config/node_key.json" := NodeKeyJSON "old-node-key";
              "/node/config/priv_validator_key.json" :=
                FilePVKeyJSON "addr:pub:old-validator-key"
                  "pub:old-validator-key" "old-validator-key";
              "/node/data/priv_validator_state.json" :=
                LastSignStateJSON 42 0 3 ]};
  dirs := {[ "/" := 0x1ed%Z; "/node" := 0x1ed%Z; "/node/config" := 0x1ed%Z;
             "/node/data" := 0x1ed%Z ]};
  denied := ∅;
  umask := 0x12%Z;
  entropy := ["random-key-1"; "random-key-2"];
  clock := 1700000000000000000%Z;
  trace := []
|}.


Definition validator (key : crypto_PubKey) (power : Z) : GenesisValidator :=
  {| Address := ""; PubKey := key; Power := power; Name := "v1" |}.

Definition no_chain_id : GenesisDoc := {|
  GenesisTime := 0%Z;
  ChainID := "";
  Validators := [validator "PK_A" 10];
  AppState := "{}"
|}.

End Sample.

(** * Properties *)

(** ** Auth parameters *)

Section AuthFacts.
Import Auth.

Lemma check_None (e rest : error) :
  check e rest = None <-> e = None /\ rest = None.
Proof.
  destruct e; simpl; split;
    [discriminate | intros []; discriminate | auto | tauto].
Qed.

Lemma validators_reject_exactly_zero : Forall rejects_exactly_zero validators.
Proof.
  unfold validators.
  repeat (apply Forall_cons; split); try apply Forall_nil_2;
    intros v; cbn; destruct (N.eqb_spec v 0); split; congruence.
Qed.

(** C8: [Validate] returns nil if and only if all six parameters are
    non-zero; each of the six per-field validators returns nil on a [uint64]
    exactly when it is not zero; and [DefaultParams] passes [Validate]. *)
Theorem Validate_nil_iff_all_nonzero :
  (forall p : Params,
     Validate p = None <->
     MaxMemoCharacters p <> 0%N /\ TxSigLimit p <> 0%N /\
     TxSizeCostPerByte p <> 0%N /\ SigVerifyCostED25519 p <> 0%N /\
     SigVerifyCostSecp256k1 p <> 0%N /\ SigVerifyCostSm2 p <> 0%N) /\
  Forall rejects_exactly_zero validators /\
  Validate DefaultParams = None.
Proof.
  split; [| split; [exact validators_reject_exactly_zero | reflexivity]].
  intros [memo sigs size ed k1 sm2]. unfold Validate. rewrite !check_None.
  cbn.
  destruct (N.eqb_spec memo 0), (N.eqb_spec sigs 0), (N.eqb_spec size 0),
    (N.eqb_spec ed 0), (N.eqb_spec k1 0), (N.eqb_spec sm2 0);
    intuition congruence.
Qed.

(** X1: [Validate] returns the error of the first zero field in the order
    TxSigLimit, SigVerifyCostED25519, SigVerifyCostSecp256k1,
    SigVerifyCostSm2, MaxMemoCharacters, TxSizeCostPerByte, which is not the
    order of [ParamSetPairs]; the number printed in the message is always
    0. *)
Theorem Validate_first_zero_field (p : Params) :
  Validate p =
    first_zero
      [ (TxSigLimit p, "invalid tx signature limit: 0");
        (SigVerifyCostED25519 p,
         "invalid ED25519 signature verification cost: 0");
        (SigVerifyCostSecp256k1 p,
         "invalid SECK256k1 signature verification cost: 0");
        (SigVerifyCostSm2 p, "invalid Sm2 signature verification cost: 0");
        (MaxMemoCharacters p, "invalid max memo characters: 0");
        (TxSizeCostPerByte p, "invalid tx size cost per byte: 0") ].
Proof.
  destruct p as [memo sigs size ed k1 sm2]. unfold Validate. cbn.
  destruct (N.eqb_spec sigs 0) as [->|]; [reflexivity|].
  destruct (N.eqb_spec ed 0) as [->|]; [reflexivity|].
  destruct (N.eqb_spec k1 0) as [->|]; [reflexivity|].
  destruct (N.eqb_spec sm2 0) as [->|]; [reflexivity|].
  destruct (N.eqb_spec memo 0) as [->|]; [reflexivity|].
  destruct (N.eqb_spec size 0) as [->|]; reflexivity.
Qed.

(** X3: the pairs handed to the parameter store have six pairwise distinct
    keys, and validating every pair's value with the pair's own validator
    accepts exactly the parameter sets that [Validate] accepts. *)
Theorem ParamSetPairs_agree_with_Validate (p : Params) :
  length (ParamSetPairs p) = 6 /\
  NoDup (Key <$> ParamSetPairs p) /\
  (Forall (fun pair => ValidatorFn pair (Value pair) = None) (ParamSetPairs p)
   <-> Validate p = None).
Proof.
  split; [reflexivity|]. split.
  - apply (bool_decide_unpack _). vm_compute. exact I.
  - destruct p as [memo sigs size ed k1 sm2]. unfold Validate, ParamSetPairs.
    rewrite !check_None, !Forall_cons, Forall_nil. cbn. tauto.
Qed.

(** X4: the secp256r1 cost is the secp256k1 cost halved, rounding down: it is
    at
    most the secp256k1 cost, and it is zero exactly when that cost is 0 or
    1, so a parameter set that passes [Validate] can have a zero secp256r1
    cost. *)
Theorem SigVerifyCostSecp256r1_halves :
  (forall p : Params,
     (2 * SigVerifyCostSecp256r1 p <= SigVerifyCostSecp256k1 p)%N /\
     (SigVerifyCostSecp256k1 p <= 2 * SigVerifyCostSecp256r1 p + 1)%N /\
     (SigVerifyCostSecp256r1 p = 0%N <-> (SigVerifyCostSecp256k1 p <= 1)%N)) /\
  (exists p : Params, Validate p = None /\ SigVerifyCostSecp256r1 p = 0%N).
Proof.
  split.
  - intros p. unfold SigVerifyCostSecp256r1.
    generalize (SigVerifyCostSecp256k1 p). unfold uint64. intros n.
    pose proof (N.div_mod n 2 ltac:(lia)) as Hdm.
    pose proof (N.mod_lt n 2 ltac:(lia)) as Hlt.
    revert Hdm Hlt. generalize (n / 2)%N (n mod 2)%N. intros q r Hdm Hlt.
    lia.
  - exists (NewParams 1%N 1%N 1%N 1%N 1%N 1%N). split; reflexivity.
Qed.

End AuthFacts.

(** ** Genesis export *)

Section GenesisFacts.
Import Genutil.
Context `{Collaborators}.

Local Open Scope Z_scope.

(** A failed validation leaves the world as it was. *)
Lemma ValidateAndComplete_Fail genDoc w e :
  (ValidateAndComplete genDoc w).1 = Fail e ->
  ValidateAndComplete genDoc w = (Fail e, w).
Proof.
  unfold ValidateAndComplete.
  case_bool_decide; [by intros [= <-]|].
  destruct (validateValidators _ _); [by intros [= <-]|].
  destruct (Time_IsZero _); discriminate.
Qed.

(** C4: when validation of the document fails, [ExportGenesisFile] and
    [ExportGenesisFileWithTime] return the validation error and the world is
    the one before the call: no file is written, created or changed, and no
    filesystem call is issued. *)
Theorem failed_validation_writes_nothing (genDoc : GenesisDoc)
    (genFile : string) (w : World) (e : error) :
  (ValidateAndComplete genDoc w).1 = Fail e ->
  ExportGenesisFile genDoc genFile w = (Fail e, w) /\
  ExportGenesisFileWithTime genFile (ChainID genDoc) (Validators genDoc)
    (AppState genDoc) (GenesisTime genDoc) w = (Fail e, w).
Proof.
  intros Hv. apply ValidateAndComplete_Fail in Hv.
  unfold ExportGenesisFile, ExportGenesisFileWithTime, bind.
  destruct genDoc as [t c vs a]; simpl. by rewrite Hv.
Qed.


End GenesisFacts.

(** ** The theorems at concrete inputs *)

(** A decidable proposition about concrete data, by evaluation. *)
Ltac by_evaluation := apply (bool_decide_unpack _); vm_compute; exact I.

Section GenesisWitnesses.
Import Genutil Sample.
Local Open Scope Z_scope.
Local Existing Instance collaborators.

(** C4 on a document without chain id, over the running node. *)
Lemma failed_validation_writes_nothing_witness :
  (ValidateAndComplete no_chain_id running).1 = Fail EmptyChainID /\
  ExportGenesisFile no_chain_id "/node/config/genesis.json" running
    = (Fail EmptyChainID, running) /\
  ExportGenesisFileWithTime "/node/config/genesis.json" ""
    [validator "PK_A" 10] "{}" 0 running = (Fail EmptyChainID, running).
Proof.
  split; [reflexivity|].
  apply (failed_validation_writes_nothing no_chain_id
           "/node/config/genesis.json" running EmptyChainID).
  reflexivity.
Defined.

End GenesisWitnesses.

(** ** Identity provisioning *)

Section ProvisioningFacts.
Import Genutil Spec.
Context `{Collaborators}.
Local Open Scope go_scope.

(** A phrase that fails validation: the call returns before anything else. *)
Lemma invalid_mnemonic_run config mnemonic w :
  mnemonic <> "" -> IsMnemonicValid mnemonic = false ->
  InitializeNodeValidatorFilesFromMnemonic config mnemonic w
    = (Fail InvalidMnemonic, w).
Proof.
  intros Hne Hbad. destruct mnemonic as [|c rest]; [done|].
  unfold InitializeNodeValidatorFilesFromMnemonic. simpl. by rewrite Hbad.
Qed.

(** The outcomes of the two calls that change the filesystem. *)
Lemma WriteFile_cases path content w :
  WriteFile path content w
    = (Return tt,
       set_files (<[path := content]> (files w))
         (log (EvWriteFile path content) w)) \/
  WriteFile path content w
    = (Fail (FilesystemFailure path), log (EvWriteFile path content) w).
Proof. unfold WriteFile. simpl. case_match; auto. Qed.

(** [MkdirAll]: the directory was there; or it was created, perhaps with
    parents, and what existed is as before; or nothing changed and it
    failed. *)
Lemma MkdirAll_cases fuel path perm w :
  (is_Some (dirs w !! path) /\ MkdirAll fuel path perm w = (Return tt, w)) \/
  (exists d',
     dirs w !! path = None /\ dirs w ⊆ d' /\ is_Some (d' !! path) /\
     MkdirAll fuel path perm w = (Return tt, set_dirs d' w)) \/
  (dirs w !! path = None /\
   exists p, MkdirAll fuel path perm w = (Fail (FilesystemFailure p), w)).
Proof.
  revert path w.
  assert (forall path w,
            dirs w !! path = None ->
            exists d',
              dirs w ⊆ d' /\ is_Some (d' !! path) /\
              Mkdir path perm w = (Return tt, set_dirs d' w)) as Hmk.
  { intros path w Hd. eexists. split_and!; [| | reflexivity].
    - by apply insert_subseteq.
    - rewrite lookup_insert_eq. eauto. }
  induction fuel as [|fuel IH]; intros path w; simpl;
    destruct (dirs w !! path) eqn:Hd; try (left; by eauto);
    (case_match; [right; right; by eauto |]).
  - right; left. destruct (Hmk path w Hd) as (d' & ? & ? & ->).
    exists d'. by split_and!.
  - destruct (bool_decide (filepath_Dir path = path)).
    { right; left. destruct (Hmk path w Hd) as (d' & ? & ? & ->).
      exists d'. by split_and!. }
    unfold bind.
    destruct (IH (filepath_Dir path) w)
      as [[_ ->] | [(d1 & _ & Hsub & _ & ->) | (_ & p & ->)]].
    + right; left. destruct (Hmk path w Hd) as (d' & ? & ? & ->).
      exists d'. by split_and!.
    + right; left. unfold Mkdir. simpl. eexists. split_and!; [done | | |].
      * apply map_subseteq_spec. intros k v Hk.
        rewrite lookup_insert_ne
          by (intros Heq; rewrite Heq in Hd; by rewrite Hd in Hk).
        by eapply lookup_weaken.
      * rewrite lookup_insert_eq. eauto.
      * reflexivity.
    + right; right. eauto.
Qed.

Lemma EnsureDir_cases dir mode w :
  (is_Some (dirs w !! dir) /\
   EnsureDir dir mode w = (Return tt, log (EvMkdirAll dir mode) w)) \/
  (exists d',
     dirs w !! dir = None /\ dirs w ⊆ d' /\ is_Some (d' !! dir) /\
     EnsureDir dir mode w
       = (Return tt, set_dirs d' (log (EvMkdirAll dir mode) w))) \/
  (dirs w !! dir = None /\
   EnsureDir dir mode w
     = (Fail (FilesystemFailure dir), log (EvMkdirAll dir mode) w)).
Proof.
  unfold EnsureDir. cbv zeta.
  destruct (MkdirAll_cases (String.length dir) dir mode
              (log (EvMkdirAll dir mode) w))
    as [[? ->] | [(d' & ? & ? & ? & ->) | (? & p & ->)]]; eauto 10.
Qed.

(** The calls on the paths where they succeed. *)
Lemma WriteFile_ok path content w :
  path ∉ denied w -> is_Some (dirs w !! filepath_Dir path) ->
  WriteFile path content w
    = (Return tt,
       set_files (<[path := content]> (files w))
         (log (EvWriteFile path content) w)).
Proof.
  intros Hden [perm Hdir]. unfold WriteFile. simpl.
  by rewrite (bool_decide_eq_false_2 _ Hden), Hdir.
Qed.

Lemma EnsureDir_exists dir mode w :
  is_Some (dirs w !! dir) ->
  EnsureDir dir mode w = (Return tt, log (EvMkdirAll dir mode) w).
Proof.
  intros [perm Hdir]. unfold EnsureDir. cbv zeta.
  destruct (String.length dir); simpl; by rewrite Hdir.
Qed.

Ltac step :=
  match goal with
  | |- context [WriteFile ?p ?c ?w] =>
      destruct (WriteFile_cases p c w) as [-> | ->]
  | |- context [EnsureDir ?d ?m ?w] =>
      destruct (EnsureDir_cases d m w)
        as [[_ ->] | [(? & _ & _ & _ & ->) | [_ ->]]]
  end; simpl.

(** With a valid phrase, a call that returns has issued five calls to the
    filesystem: it wrote the derived key as node key, ensured the two
    directories, and wrote the derived key as validator key with a new
    signing state. *)
Lemma mnemonic_run_Return config mnemonic w r :
  mnemonic <> "" ->
  (InitializeNodeValidatorFilesFromMnemonic config mnemonic w).1 = Return r ->
  let k := GenPrivKeyFromSecret mnemonic in
  let w' := (InitializeNodeValidatorFilesFromMnemonic config mnemonic w).2 in
  IsMnemonicValid mnemonic = true /\
  r.1 = PubKeyToID (PrivKey_PubKey k) /\
  FromTmPubKeyInterface (PrivKey_PubKey k) = Some r.2 /\
  files w' =
    <[PrivValidatorStateFile config := initial_sign_state]>
      (<[PrivValidatorKeyFile config := validator_key_file k]>
         (<[NodeKeyFile config := NodeKeyJSON k]> (files w))) /\
  trace w' =
    ([ EvWriteFile (PrivValidatorStateFile config) initial_sign_state;
       EvWriteFile (PrivValidatorKeyFile config) (validator_key_file k);
       EvMkdirAll (filepath_Dir (PrivValidatorStateFile config)) mode_0777;
       EvMkdirAll (filepath_Dir (PrivValidatorKeyFile config)) mode_0777;
       EvWriteFile (NodeKeyFile config) (NodeKeyJSON k) ] ++ trace w)%list /\
  entropy w' = entropy w.
Proof.
  intros Hne. destruct mnemonic as [|c rest]; [done|]. clear Hne.
  cbv zeta.
  unfold InitializeNodeValidatorFilesFromMnemonic, NodeKey_SaveAs,
    FilePV_Save, FilePV_GetPubKey, cryptocodec_FromTmPubKeyInterface, NewFilePV,
    NodeKey_ID, must, bind, ret, fail.
  simpl.
  destruct (IsMnemonicValid _); simpl; [| discriminate].
  repeat (step; try discriminate).
  all: destruct (FromTmPubKeyInterface _) eqn:Hc; simpl; [| discriminate];
    intros [= <-]; done.
Qed.

(** The outcomes of loading or generating the node key. *)
Lemma LoadOrGenNodeKey_cases filePath w :
  (exists k,
     files w !! filePath = Some (NodeKeyJSON k) /\
     LoadOrGenNodeKey filePath w = (Return {| PrivKey := k |}, w)) \/
  (is_Some (files w !! filePath) /\
   LoadOrGenNodeKey filePath w = (Fail (CorruptIdentityFile filePath), w)) \/
  (files w !! filePath = None /\ entropy w = [] /\
   LoadOrGenNodeKey filePath w = (Fatal EntropyExhausted, w)) \/
  (exists k rest,
     files w !! filePath = None /\ entropy w = k :: rest /\
     (LoadOrGenNodeKey filePath w
        = (Return {| PrivKey := k |},
           set_files (<[filePath := NodeKeyJSON k]> (files w))
             (log (EvWriteFile filePath (NodeKeyJSON k))
                (set_entropy rest w))) \/
      LoadOrGenNodeKey filePath w
        = (Fail (FilesystemFailure filePath),
           log (EvWriteFile filePath (NodeKeyJSON k)) (set_entropy rest w)))).
Proof.
  unfold LoadOrGenNodeKey, FileExists, LoadNodeKey, GenPrivKey,
    NodeKey_SaveAs, bind, ret. simpl.
  destruct (files w !! filePath) as [f|] eqn:Hf.
  - rewrite bool_decide_eq_true_2 by eauto. rewrite Hf.
    destruct f; [left; by eexists | right; left; split; by eauto ..].
  - rewrite bool_decide_eq_false_2 by (intros [? [=]]).
    destruct (entropy w) as [|k rest] eqn:He; [by auto 6|].
    right; right; right. exists k, rest. split_and!; try done.
    destruct (WriteFile_cases filePath (NodeKeyJSON k) (set_entropy rest w))
      as [-> | ->]; auto.
Qed.

(** The outcomes of loading or generating the validator key with its
    signing state. *)
Lemma LoadOrGenFilePV_cases keyFilePath stateFilePath w :
  (exists addr pub priv height round step,
     files w !! keyFilePath = Some (FilePVKeyJSON addr pub priv) /\
     files w !! stateFilePath = Some (LastSignStateJSON height round step) /\
     LoadOrGenFilePV keyFilePath stateFilePath w
       = (Return
            {| Key := {| Key_Address := addr; Key_PubKey := pub;
                         Key_PrivKey := priv; Key_filePath := keyFilePath |};
               LastSignState :=
                 {| Height := height; Round := round; Step := step;
                    State_filePath := stateFilePath |} |},
          w)) \/
  (exists e,
     is_Some (files w !! keyFilePath) /\
     (e = CorruptIdentityFile keyFilePath \/
      e = CorruptIdentityFile stateFilePath \/
      e = FilesystemFailure stateFilePath) /\
     LoadOrGenFilePV keyFilePath stateFilePath w = (Fatal e, w)) \/
  (files w !! keyFilePath = None /\ entropy w = [] /\
   LoadOrGenFilePV keyFilePath stateFilePath w
     = (Fatal EntropyExhausted, w)) \/
  (exists k rest,
     files w !! keyFilePath = None /\ entropy w = k :: rest /\
     let w1 := log (EvWriteFile keyFilePath (validator_key_file k))
                 (set_entropy rest w) in
     let w2 := log (EvWriteFile stateFilePath initial_sign_state)
                 (set_files (<[keyFilePath := validator_key_file k]> (files w))
                    w1) in
     (LoadOrGenFilePV keyFilePath stateFilePath w
        = (Return (NewFilePV k keyFilePath stateFilePath),
           set_files
             (<[stateFilePath := initial_sign_state]>
                (<[keyFilePath := validator_key_file k]> (files w))) w2) \/
      LoadOrGenFilePV keyFilePath stateFilePath w
        = (Fatal (FilesystemFailure stateFilePath), w2) \/
      LoadOrGenFilePV keyFilePath stateFilePath w
        = (Fatal (FilesystemFailure keyFilePath), w1))).
Proof.
  unfold LoadOrGenFilePV, FileExists, LoadFilePV, GenPrivKey, FilePV_Save,
    must, bind, ret. simpl.
  destruct (files w !! keyFilePath) as [f|] eqn:Hf.
  - rewrite bool_decide_eq_true_2 by eauto. rewrite Hf.
    destruct f;
      try (right; left; eexists; split_and!; [by eauto | | reflexivity];
           by auto).
    destruct (files w !! stateFilePath) as [s|] eqn:Hs; [destruct s|];
      try (right; left; eexists; split_and!; [by eauto | | reflexivity];
           by auto).
    left. eexists _, _, _, _, _, _. split_and!; reflexivity.
  - rewrite bool_decide_eq_false_2 by (intros [? [=]]).
    destruct (entropy w) as [|k rest] eqn:He; [by auto 6|].
    right; right; right. exists k, rest. split_and!; try done.
    cbv zeta.
    destruct (WriteFile_cases keyFilePath
                (FilePVKey_file (Key (NewFilePV k keyFilePath stateFilePath)))
                (set_entropy rest w)) as [E | E]; simpl in E; rewrite E;
      [| by auto].
    match goal with
    | |- context [WriteFile ?p ?c ?w0] =>
        destruct (WriteFile_cases p c w0) as [E' | E']; simpl in E';
          rewrite E'; auto
    end.
Qed.

(** Load when the file is there. *)
Lemma LoadOrGenNodeKey_load filePath w k :
  files w !! filePath = Some (NodeKeyJSON k) ->
  LoadOrGenNodeKey filePath w = (Return {| PrivKey := k |}, w).
Proof.
  intros Hf. unfold LoadOrGenNodeKey, FileExists, LoadNodeKey, bind. simpl.
  rewrite bool_decide_eq_true_2 by eauto. by rewrite Hf.
Qed.

Lemma LoadOrGenFilePV_load keyFilePath stateFilePath w addr pub priv
    height round step :
  files w !! keyFilePath = Some (FilePVKeyJSON addr pub priv) ->
  files w !! stateFilePath = Some (LastSignStateJSON height round step) ->
  LoadOrGenFilePV keyFilePath stateFilePath w
    = (Return
         {| Key := {| Key_Address := addr; Key_PubKey := pub;
                      Key_PrivKey := priv; Key_filePath := keyFilePath |};
            LastSignState :=
              {| Height := height; Round := round; Step := step;
                 State_filePath := stateFilePath |} |},
       w).
Proof.
  intros Hk Hs. unfold LoadOrGenFilePV, FileExists, LoadFilePV, bind. simpl.
  rewrite bool_decide_eq_true_2 by eauto. by rewrite Hk, Hs.
Qed.

(** Generate from the random source and persist when the file is not
    there. *)
Lemma LoadOrGenNodeKey_generate filePath w k rest :
  files w !! filePath = None -> entropy w = k :: rest ->
  filePath ∉ denied w -> is_Some (dirs w !! filepath_Dir filePath) ->
  LoadOrGenNodeKey filePath w
    = (Return {| PrivKey := k |},
       set_files (<[filePath := NodeKeyJSON k]> (files w))
         (log (EvWriteFile filePath (NodeKeyJSON k)) (set_entropy rest w))).
Proof.
  intros Hf He Hden Hdir.
  unfold LoadOrGenNodeKey, FileExists, GenPrivKey, NodeKey_SaveAs, bind, ret.
  simpl. rewrite bool_decide_eq_false_2 by (rewrite Hf; intros [? [=]]).
  rewrite He. by rewrite WriteFile_ok.
Qed.

Lemma LoadOrGenFilePV_generate keyFilePath stateFilePath w k rest :
  files w !! keyFilePath = None -> entropy w = k :: rest ->
  keyFilePath ∉ denied w -> is_Some (dirs w !! filepath_Dir keyFilePath) ->
  stateFilePath ∉ denied w ->
  is_Some (dirs w !! filepath_Dir stateFilePath) ->
  LoadOrGenFilePV keyFilePath stateFilePath w
    = (Return (NewFilePV k keyFilePath stateFilePath),
       set_files
         (<[stateFilePath := initial_sign_state]>
            (<[keyFilePath := validator_key_file k]> (files w)))
         (log (EvWriteFile stateFilePath initial_sign_state)
            (set_files (<[keyFilePath := validator_key_file k]> (files w))
               (log (EvWriteFile keyFilePath (validator_key_file k))
                  (set_entropy rest w))))).
Proof.
  intros Hf He Hden Hdir Hden' Hdir'.
  unfold LoadOrGenFilePV, FileExists, GenPrivKey, FilePV_Save, must, bind, ret.
  simpl. rewrite bool_decide_eq_false_2 by (rewrite Hf; intros [? [=]]).
  rewrite He. rewrite WriteFile_ok by done. simpl.
  by rewrite WriteFile_ok.
Qed.

(** Symbolic execution of a provisioning run: one case per outcome of each
    collaborator, in the order of the calls. *)
Ltac step_run :=
  match goal with
  | |- context [LoadOrGenNodeKey ?p ?w0] =>
      destruct (LoadOrGenNodeKey_cases p w0)
        as [(? & ? & ->) | [(? & ->) | [(? & ? & ->) |
            (? & ? & ? & ? & [-> | ->])]]]
  | |- context [LoadOrGenFilePV ?p ?q ?w0] =>
      let Hc := fresh "Hc" in
      destruct (LoadOrGenFilePV_cases p q w0)
        as [(? & ? & ? & ? & ? & ? & ? & ? & ->) | [(? & ? & ? & ->) |
            [(? & ? & ->) | (? & ? & ? & ? & Hc)]]];
      [| | | cbv zeta in Hc; destruct Hc as [-> | [-> | ->]]]
  | |- context [WriteFile ?p ?c ?w0] =>
      destruct (WriteFile_cases p c w0) as [-> | ->]
  | |- context [EnsureDir ?d ?m ?w0] =>
      destruct (EnsureDir_cases d m w0)
        as [[? ->] | [(? & ? & ? & ? & ->) | [? ->]]]
  | |- context [FromTmPubKeyInterface ?pk] =>
      destruct (FromTmPubKeyInterface pk) eqn:?
  end; simpl.

Ltac run_all :=
  unfold InitializeNodeValidatorFilesFromMnemonic, NodeKey_SaveAs,
    FilePV_Save, FilePV_GetPubKey, cryptocodec_FromTmPubKeyInterface,
    NodeKey_ID, must, bind, ret, fail;
  simpl; repeat step_run.

(** Lookups in a map after insertions, by cases on the keys. *)
Ltac lookups :=
  simpl in *;
  repeat match goal with
         | Hl : context [<[_ := _]> _ !! _] |- _ =>
             rewrite lookup_insert in Hl; case_decide; simplify_eq
         | |- context [<[_ := _]> _ !! _] =>
             rewrite lookup_insert; case_decide; simplify_eq
         end;
  try done; try congruence;
  eauto using lookup_weaken, lookup_weaken_is_Some.

(** The new calls of a log, for a log given call by call. *)
Ltac new_calls :=
  first [ exists []; split; [reflexivity|]
        | eexists [_]; split; [reflexivity|]
        | eexists [_; _]; split; [reflexivity|]
        | eexists [_; _; _]; split; [reflexivity|]
        | eexists [_; _; _; _]; split; [reflexivity|]
        | eexists [_; _; _; _; _]; split; [reflexivity|] ].

(** C7, as amended: in every run the two calls that ensure the directories
    of the validator key file and of the signing-state file come before any
    write of a validator file; the mode every such call asks for is [0777],
    and the run asks for no other directory; a directory that existed keeps
    its permission bits; and a run that returns leaves both directories in
    place. *)
Theorem directories_ensured_with_mode_0777 (config : Config)
    (mnemonic : string) (w : World) :
  let run := InitializeNodeValidatorFilesFromMnemonic config mnemonic w in
  let keyDir := filepath_Dir (PrivValidatorKeyFile config) in
  let stateDir := filepath_Dir (PrivValidatorStateFile config) in
  (exists new : list Event,
     trace run.2 = (new ++ trace w)%list /\
     ensured_before (EvMkdirAll keyDir mode_0777)
       (EvMkdirAll stateDir mode_0777) new /\
     Forall (fun ev =>
               forall dir perm,
                 ev = EvMkdirAll dir perm ->
                 perm = mode_0777 /\ (dir = keyDir \/ dir = stateDir))
       new) /\
  (forall dir perm,
     dirs w !! dir = Some perm -> dirs run.2 !! dir = Some perm) /\
  (forall r, run.1 = Return r ->
     is_Some (dirs run.2 !! keyDir) /\ is_Some (dirs run.2 !! stateDir)).
Proof.
  cbv zeta. destruct mnemonic as [|c rest].
  - (run_all; (split_and!;
      [ new_calls; split;
        [ simpl; unfold validator_key_file, initial_sign_state;
          simpl; intuition set_solver
        | repeat (apply Forall_cons; split); try apply Forall_nil_2;
          intros dir perm Heq; simplify_eq; auto ]
      | intros dir perm Hsome; lookups
      | intros r Hr; try discriminate; split; lookups ])).
  - (run_all; destruct (IsMnemonicValid _); simpl; repeat step_run;
    (split_and!;
      [ new_calls; split;
        [ simpl; unfold validator_key_file, initial_sign_state;
          simpl; intuition set_solver
        | repeat (apply Forall_cons; split); try apply Forall_nil_2;
          intros dir perm Heq; simplify_eq; auto ]
      | intros dir perm Hsome; lookups
      | intros r Hr; try discriminate; split; lookups ])).
Qed.

(** C2: on a non-empty phrase that fails validation the call returns the
    invalid-mnemonic error and the world is the one before the call: no file
    or directory is created or changed, and no filesystem call is issued. *)
Theorem invalid_mnemonic_fails_without_writes (config : Config)
    (mnemonic : string) (w : World) :
  mnemonic <> "" -> IsMnemonicValid mnemonic = false ->
  let run := InitializeNodeValidatorFilesFromMnemonic config mnemonic w in
  run.1 = Fail InvalidMnemonic /\ run.2 = w /\
  files run.2 = files w /\ dirs run.2 = dirs w /\ trace run.2 = trace w.
Proof.
  intros Hne Hbad. cbv zeta.
  by rewrite (invalid_mnemonic_run config mnemonic w Hne Hbad).
Qed.

(** C6: on the empty phrase the call never ends with the invalid-mnemonic
    error, whatever the validator says of the empty phrase; it is the
    composition of [LoadOrGenNodeKey] and [LoadOrGenFilePV] around the two
    calls of [EnsureDir]; and each of the two loads the key when its file
    holds one, and otherwise draws a key from the random source and persists
    it. *)
Theorem empty_mnemonic_loads_or_generates (config : Config) (w : World) :
  let run := InitializeNodeValidatorFilesFromMnemonic config "" w in
  not_error InvalidMnemonic run.1 /\
  run =
    (nodeKey <- LoadOrGenNodeKey (NodeKeyFile config) ;;
     EnsureDir (filepath_Dir (PrivValidatorKeyFile config)) mode_0777 ;;;
     EnsureDir (filepath_Dir (PrivValidatorStateFile config)) mode_0777 ;;;
     filePV <- LoadOrGenFilePV (PrivValidatorKeyFile config)
                 (PrivValidatorStateFile config) ;;
     valPubKey <- cryptocodec_FromTmPubKeyInterface (Key_PubKey (Key filePV)) ;;
     ret (NodeKey_ID nodeKey, valPubKey)) w /\
  InitializeNodeValidatorFiles config w = run /\
  (forall path w0 k,
     files w0 !! path = Some (NodeKeyJSON k) ->
     LoadOrGenNodeKey path w0 = (Return {| PrivKey := k |}, w0)) /\
  (forall path w0 k rest,
     files w0 !! path = None -> entropy w0 = k :: rest ->
     path ∉ denied w0 -> is_Some (dirs w0 !! filepath_Dir path) ->
     exists w1,
       LoadOrGenNodeKey path w0 = (Return {| PrivKey := k |}, w1) /\
       files w1 = <[path := NodeKeyJSON k]> (files w0) /\
       entropy w1 = rest) /\
  (forall keyPath statePath w0 addr pub priv height round step,
     files w0 !! keyPath = Some (FilePVKeyJSON addr pub priv) ->
     files w0 !! statePath = Some (LastSignStateJSON height round step) ->
     exists pv,
       LoadOrGenFilePV keyPath statePath w0 = (Return pv, w0) /\
       Key_PrivKey (Key pv) = priv /\ Key_PubKey (Key pv) = pub /\
       Height (LastSignState pv) = height) /\
  (forall keyPath statePath w0 k rest,
     files w0 !! keyPath = None -> entropy w0 = k :: rest ->
     keyPath ∉ denied w0 -> is_Some (dirs w0 !! filepath_Dir keyPath) ->
     statePath ∉ denied w0 -> is_Some (dirs w0 !! filepath_Dir statePath) ->
     exists w1,
       LoadOrGenFilePV keyPath statePath w0
         = (Return (NewFilePV k keyPath statePath), w1) /\
       files w1 =
         <[statePath := initial_sign_state]>
           (<[keyPath := validator_key_file k]> (files w0)) /\
       entropy w1 = rest).
Proof.
  cbv zeta. split_and!.
  - run_all; split; intros [=]; subst;
      repeat match goal with
             | Hd : _ \/ _ |- _ => destruct Hd
             end; discriminate.
  - reflexivity.
  - reflexivity.
  - apply LoadOrGenNodeKey_load.
  - intros path w0 k rest Hf He Hden Hdir. eexists. split.
    + by apply LoadOrGenNodeKey_generate.
    + done.
  - intros keyPath statePath w0 addr pub priv height round step Hk Hs.
    eexists. split; [by eapply LoadOrGenFilePV_load | done].
  - intros keyPath statePath w0 k rest Hf He Hden Hdir Hden' Hdir'.
    eexists. split; [by apply LoadOrGenFilePV_generate | done].
Qed.

(** Without mnemonic and with both key files on disk, a run writes no file
    and draws no key. *)
Lemma empty_mnemonic_provisioned config w :
  provisioned config w ->
  let run := InitializeNodeValidatorFilesFromMnemonic config "" w in
  files run.2 = files w /\ entropy run.2 = entropy w /\
  (forall r, run.1 = Return r ->
     exists k addr pub priv,
       files w !! NodeKeyFile config = Some (NodeKeyJSON k) /\
       files w !! PrivValidatorKeyFile config
         = Some (FilePVKeyJSON addr pub priv) /\
       r.1 = PubKeyToID (PrivKey_PubKey k) /\
       FromTmPubKeyInterface pub = Some r.2).
Proof.
  intros [[fn Hn] [fp Hp]]. cbv zeta.
  run_all; simpl in *; try congruence;
    (split_and!; [done | done | intros r [=]; subst]).
  all: eexists _, _, _, _; split_and!; eauto.
Qed.

(** Without mnemonic, well-formed identity files in existing directories are
    loaded and the run returns. *)
Lemma empty_mnemonic_returns config w k addr pub priv height round step pk :
  files w !! NodeKeyFile config = Some (NodeKeyJSON k) ->
  files w !! PrivValidatorKeyFile config = Some (FilePVKeyJSON addr pub priv) ->
  files w !! PrivValidatorStateFile config
    = Some (LastSignStateJSON height round step) ->
  is_Some (dirs w !! filepath_Dir (PrivValidatorKeyFile config)) ->
  is_Some (dirs w !! filepath_Dir (PrivValidatorStateFile config)) ->
  FromTmPubKeyInterface pub = Some pk ->
  (InitializeNodeValidatorFilesFromMnemonic config "" w).1
    = Return (PubKeyToID (PrivKey_PubKey k), pk).
Proof.
  intros Hn Hk Hs Hd1 Hd2 Hpk.
  unfold InitializeNodeValidatorFilesFromMnemonic, FilePV_GetPubKey,
    cryptocodec_FromTmPubKeyInterface, NodeKey_ID, bind, ret.
  simpl. rewrite (LoadOrGenNodeKey_load _ _ _ Hn).
  rewrite EnsureDir_exists by done. rewrite EnsureDir_exists by done.
  erewrite LoadOrGenFilePV_load by done. simpl. by rewrite Hpk.
Qed.

(** C1, as amended: with both identity files on disk, a call without
    mnemonic leaves every file as it is, returns only the node identifier
    and validator public key of the keys stored in the two files, and does
    return when the files are well formed; a call with a non-empty phrase
    that returns has overwritten the node key file, the validator key file
    and the signing-state file with the key derived from the phrase, and
    returns the identifiers of the derived key. *)
Theorem provisioned_identity_kept_without_mnemonic (config : Config)
    (mnemonic : string) (w : World) :
  provisioned config w ->
  let run := InitializeNodeValidatorFilesFromMnemonic config mnemonic w in
  (mnemonic = "" ->
   files run.2 = files w /\ identity_kept config w run.2 /\
   (forall r, run.1 = Return r ->
      exists k addr pub priv,
        files w !! NodeKeyFile config = Some (NodeKeyJSON k) /\
        files w !! PrivValidatorKeyFile config
          = Some (FilePVKeyJSON addr pub priv) /\
        r.1 = PubKeyToID (PrivKey_PubKey k) /\
        FromTmPubKeyInterface pub = Some r.2) /\
   (forall k addr pub priv height round step pk,
      files w !! NodeKeyFile config = Some (NodeKeyJSON k) ->
      files w !! PrivValidatorKeyFile config
        = Some (FilePVKeyJSON addr pub priv) ->
      files w !! PrivValidatorStateFile config
        = Some (LastSignStateJSON height round step) ->
      is_Some (dirs w !! filepath_Dir (PrivValidatorKeyFile config)) ->
      is_Some (dirs w !! filepath_Dir (PrivValidatorStateFile config)) ->
      FromTmPubKeyInterface pub = Some pk ->
      run.1 = Return (PubKeyToID (PrivKey_PubKey k), pk))) /\
  (mnemonic <> "" ->
   forall r, run.1 = Return r ->
     let k := GenPrivKeyFromSecret mnemonic in
     IsMnemonicValid mnemonic = true /\
     r.1 = PubKeyToID (PrivKey_PubKey k) /\
     FromTmPubKeyInterface (PrivKey_PubKey k) = Some r.2 /\
     files run.2 =
       <[PrivValidatorStateFile config := initial_sign_state]>
         (<[PrivValidatorKeyFile config := validator_key_file k]>
            (<[NodeKeyFile config := NodeKeyJSON k]> (files w)))).
Proof.
  intros Hprov. cbv zeta. split.
  - intros ->.
    destruct (empty_mnemonic_provisioned config w Hprov) as (Hf & _ & Hr).
    split_and!; [done | by unfold identity_kept; rewrite Hf | done |].
    intros. by eapply empty_mnemonic_returns.
  - intros Hne r Hr.
    destruct (mnemonic_run_Return config mnemonic w r Hne Hr)
      as (? & ? & ? & ? & _).
    done.
Qed.

(** C5, as amended: without mnemonic, a signing-state file that exists next
    to an existing validator key file is left as it is; without mnemonic and
    without validator key file, a run that returns has written the initial
    signing state; with a non-empty phrase, every run that returns has
    written the initial signing state, whatever was on disk. *)
Theorem sign_state_kept_without_mnemonic (config : Config)
    (mnemonic : string) (w : World) :
  let run := InitializeNodeValidatorFilesFromMnemonic config mnemonic w in
  (mnemonic = "" ->
   is_Some (files w !! PrivValidatorKeyFile config) ->
   forall s, files w !! PrivValidatorStateFile config = Some s ->
     files run.2 !! PrivValidatorStateFile config = Some s) /\
  (mnemonic = "" ->
   files w !! PrivValidatorKeyFile config = None ->
   forall r, run.1 = Return r ->
     files run.2 !! PrivValidatorStateFile config = Some initial_sign_state) /\
  (mnemonic <> "" ->
   forall r, run.1 = Return r ->
     files run.2 !! PrivValidatorStateFile config = Some initial_sign_state).
Proof.
  cbv zeta. split_and!.
  - intros -> [fk Hk] s Hs. run_all; lookups.
  - intros -> Hk r. run_all; intros [=]; lookups.
  - intros Hne r Hr.
    destruct (mnemonic_run_Return config mnemonic w r Hne Hr)
      as (_ & _ & _ & -> & _).
    apply lookup_insert_eq.
Qed.

(** C10: with a valid non-empty phrase, a run that returns has written the
    node key and the validator key from one and the same private key, the
    one derived from the phrase: these are its only writes of keys, the
    validator's public key and address are those of that key, and the node
    identifier returned is the one of its public key. *)
Theorem mnemonic_keys_identical (config : Config) (mnemonic : string)
    (w : World) (r : string * cryptotypes_PubKey) :
  mnemonic <> "" -> IsMnemonicValid mnemonic = true ->
  (InitializeNodeValidatorFilesFromMnemonic config mnemonic w).1 = Return r ->
  let w' := (InitializeNodeValidatorFilesFromMnemonic config mnemonic w).2 in
  let nodeKey := {| PrivKey := GenPrivKeyFromSecret mnemonic |} in
  let filePV := NewFilePV (GenPrivKeyFromSecret mnemonic)
                  (PrivValidatorKeyFile config)
                  (PrivValidatorStateFile config) in
  PrivKey nodeKey = Key_PrivKey (Key filePV) /\
  PrivKey_PubKey (PrivKey nodeKey) = Key_PubKey (Key filePV) /\
  trace w' =
    ([ EvWriteFile (PrivValidatorStateFile config)
         (LastSignState_file (LastSignState filePV));
       EvWriteFile (PrivValidatorKeyFile config) (FilePVKey_file (Key filePV));
       EvMkdirAll (filepath_Dir (PrivValidatorStateFile config)) mode_0777;
       EvMkdirAll (filepath_Dir (PrivValidatorKeyFile config)) mode_0777;
       EvWriteFile (NodeKeyFile config) (NodeKeyJSON (PrivKey nodeKey)) ]
     ++ trace w)%list /\
  r.1 = NodeKey_ID nodeKey /\
  FromTmPubKeyInterface (Key_PubKey (Key filePV)) = Some r.2 /\
  (PrivValidatorKeyFile config <> PrivValidatorStateFile config ->
   files w' !! PrivValidatorKeyFile config
     = Some (FilePVKey_file (Key filePV))) /\
  (NodeKeyFile config <> PrivValidatorKeyFile config ->
   NodeKeyFile config <> PrivValidatorStateFile config ->
   files w' !! NodeKeyFile config = Some (NodeKeyJSON (PrivKey nodeKey))).
Proof.
  intros Hne _ Hr. cbv zeta.
  destruct (mnemonic_run_Return config mnemonic w r Hne Hr)
    as (_ & Hid & Hpk & Hfiles & Htrace & _).
  rewrite Hfiles. split_and!; try done.
  - intros ?. rewrite lookup_insert_ne by done. apply lookup_insert_eq.
  - intros ? ?. do 2 rewrite lookup_insert_ne by done.
    apply lookup_insert_eq.
Qed.

(** *** Further properties of provisioning *)

(** X5: the invalid-mnemonic error is returned exactly for a non-empty phrase
    that fails validation; no run stops the process with it. *)
Theorem invalid_mnemonic_error_iff (config : Config) (mnemonic : string)
    (w : World) :
  let run := InitializeNodeValidatorFilesFromMnemonic config mnemonic w in
  (run.1 = Fail InvalidMnemonic <->
   mnemonic <> "" /\ IsMnemonicValid mnemonic = false) /\
  run.1 <> Fatal InvalidMnemonic.
Proof.
  cbv zeta. destruct mnemonic as [|c rest].
  - run_all; (split; [split; [intros [=] | by intros [? _]] | intros [=]]);
      subst;
      repeat match goal with
             | Hd : _ \/ _ |- _ => destruct Hd
             end; discriminate.
  - destruct (IsMnemonicValid (String c rest)) eqn:Hv.
    + unfold InitializeNodeValidatorFilesFromMnemonic, NodeKey_SaveAs,
        FilePV_Save, FilePV_GetPubKey, cryptocodec_FromTmPubKeyInterface,
        NodeKey_ID, must, bind, ret, fail.
      simpl. rewrite Hv. simpl.
      repeat step_run;
        (split; [split; [discriminate | by intros [_ [=]]] | discriminate]).
    + rewrite invalid_mnemonic_run by done. simpl.
      split; [split; [by intros _ | done] | discriminate].
Qed.

(** What a run leaves alone, whatever its outcome. *)
Lemma run_frame config mnemonic w :
  let run := InitializeNodeValidatorFilesFromMnemonic config mnemonic w in
  (forall path,
     path <> NodeKeyFile config -> path <> PrivValidatorKeyFile config ->
     path <> PrivValidatorStateFile config ->
     files run.2 !! path = files w !! path) /\
  (forall path, is_Some (files w !! path) -> is_Some (files run.2 !! path)) /\
  (forall dir, is_Some (dirs w !! dir) -> is_Some (dirs run.2 !! dir)) /\
  denied run.2 = denied w /\ clock run.2 = clock w /\
  (forall r, run.1 = Return r ->
     is_Some (dirs run.2 !! filepath_Dir (PrivValidatorKeyFile config)) /\
     is_Some (dirs run.2 !! filepath_Dir (PrivValidatorStateFile config))).
Proof.
  cbv zeta. destruct mnemonic as [|c rest].
  - run_all;
      (split_and!;
       [ intros path ? ? ?; lookups
       | intros path [? ?]; lookups
       | intros dir [? ?]; lookups
       | done | done
       | intros r Hr; try discriminate; split; lookups ]).
  - run_all; destruct (IsMnemonicValid _); simpl; repeat step_run;
      (split_and!;
       [ intros path ? ? ?; lookups
       | intros path [? ?]; lookups
       | intros dir [? ?]; lookups
       | done | done
       | intros r Hr; try discriminate; split; lookups ]).
Qed.

(** X6: a run writes no file other than the three the configuration names,
    removes no file, leaves the denied paths and the clock alone, draws no
    random key when a phrase is given and at most two otherwise. *)
Theorem provisioning_touches_only_configured_paths (config : Config)
    (mnemonic : string) (w : World) :
  let run := InitializeNodeValidatorFilesFromMnemonic config mnemonic w in
  (forall path,
     path <> NodeKeyFile config -> path <> PrivValidatorKeyFile config ->
     path <> PrivValidatorStateFile config ->
     files run.2 !! path = files w !! path) /\
  (forall path, is_Some (files w !! path) -> is_Some (files run.2 !! path)) /\
  denied run.2 = denied w /\ clock run.2 = clock w /\
  (mnemonic <> "" -> entropy run.2 = entropy w) /\
  (exists n, (n <= 2)%nat /\ entropy run.2 = drop n (entropy w)).
Proof.
  cbv zeta.
  destruct (run_frame config mnemonic w) as (Hfiles & Hkept & _ & Hden & Hclock & _).
  split_and!; try done.
  - destruct mnemonic as [|c rest]; [done|]. intros _.
    run_all; destruct (IsMnemonicValid _); simpl; repeat step_run; done.
  - destruct mnemonic as [|c rest].
    + run_all; simpl in *;
        repeat match goal with
               | He : entropy w = _ |- _ => rewrite He in *; clear He
               end; simplify_eq;
        first [ exists 0%nat; split; [lia | reflexivity]
              | exists 1%nat; split; [lia | reflexivity]
              | exists 2%nat; split; [lia | reflexivity] ].
    + exists 0%nat. split; [lia|].
      run_all; destruct (IsMnemonicValid _); simpl; repeat step_run; done.
Qed.


(** X8: on a node with neither key file, a run without mnemonic that returns
    has drawn two keys from the random source, the first for the node key
    and the second for the validator key, and has written three files. *)
Theorem first_boot_draws_two_keys (config : Config) (w : World)
    (r : string * cryptotypes_PubKey) :
  files w !! NodeKeyFile config = None ->
  files w !! PrivValidatorKeyFile config = None ->
  (InitializeNodeValidatorFilesFromMnemonic config "" w).1 = Return r ->
  let w' := (InitializeNodeValidatorFilesFromMnemonic config "" w).2 in
  exists k1 k2 rest,
    entropy w = k1 :: k2 :: rest /\ entropy w' = rest /\
    r.1 = PubKeyToID (PrivKey_PubKey k1) /\
    FromTmPubKeyInterface (PrivKey_PubKey k2) = Some r.2 /\
    trace w' =
      ([ EvWriteFile (PrivValidatorStateFile config) initial_sign_state;
         EvWriteFile (PrivValidatorKeyFile config) (validator_key_file k2);
         EvMkdirAll (filepath_Dir (PrivValidatorStateFile config)) mode_0777;
         EvMkdirAll (filepath_Dir (PrivValidatorKeyFile config)) mode_0777;
         EvWriteFile (NodeKeyFile config) (NodeKeyJSON k1) ] ++ trace w)%list.
Proof.
  intros Hnode Hkey. cbv zeta. revert r.
  run_all; intros r Hr; try discriminate; simplify_eq/=; lookups;
    repeat match goal with
           | He : entropy w = _ |- _ => rewrite He in *; clear He
           end;
    eexists _, _, _; split_and!; eauto.
Qed.



(** After a run without mnemonic that returns, the three identity files
    are well formed, the two directories exist and the identifiers returned
    are those of the keys on disk. *)
Lemma empty_mnemonic_Return_state config w r :
  distinct_paths config ->
  (InitializeNodeValidatorFilesFromMnemonic config "" w).1 = Return r ->
  let w' := (InitializeNodeValidatorFilesFromMnemonic config "" w).2 in
  exists k addr pub priv height round step,
    files w' !! NodeKeyFile config = Some (NodeKeyJSON k) /\
    files w' !! PrivValidatorKeyFile config
      = Some (FilePVKeyJSON addr pub priv) /\
    files w' !! PrivValidatorStateFile config
      = Some (LastSignStateJSON height round step) /\
    is_Some (dirs w' !! filepath_Dir (PrivValidatorKeyFile config)) /\
    is_Some (dirs w' !! filepath_Dir (PrivValidatorStateFile config)) /\
    r.1 = PubKeyToID (PrivKey_PubKey k) /\
    FromTmPubKeyInterface pub = Some r.2.
Proof.
  intros (Hnk & Hns & Hks). cbv zeta. revert r.
  run_all; intros r Hr; try discriminate; simplify_eq/=;
    eexists _, _, _, _, _, _, _;
    (split_and!; [lookups | lookups | lookups | lookups | lookups
                 | reflexivity | eassumption]).
Qed.

(** A run without mnemonic on the world such a state describes. *)
Lemma reload_identity config w' r k addr pub priv height round step :
  files w' !! NodeKeyFile config = Some (NodeKeyJSON k) ->
  files w' !! PrivValidatorKeyFile config
    = Some (FilePVKeyJSON addr pub priv) ->
  files w' !! PrivValidatorStateFile config
    = Some (LastSignStateJSON height round step) ->
  is_Some (dirs w' !! filepath_Dir (PrivValidatorKeyFile config)) ->
  is_Some (dirs w' !! filepath_Dir (PrivValidatorStateFile config)) ->
  r.1 = PubKeyToID (PrivKey_PubKey k) ->
  FromTmPubKeyInterface pub = Some r.2 ->
  (InitializeNodeValidatorFilesFromMnemonic config "" w').1 = Return r /\
  files (InitializeNodeValidatorFilesFromMnemonic config "" w').2 = files w' /\
  entropy (InitializeNodeValidatorFilesFromMnemonic config "" w').2
    = entropy w'.
Proof.
  intros Hn Hk Hs Hd1 Hd2 Hid Hpk.
  assert (provisioned config w') as Hprov by (split; eauto).
  destruct (empty_mnemonic_provisioned config w' Hprov) as (Hf & He & _).
  split_and!; [| done | done].
  rewrite (empty_mnemonic_returns config w' k addr pub priv height round step
             r.2) by done.
  destruct r; simpl in *. by rewrite Hid.
Qed.

(** X10: provisioning without mnemonic is idempotent: after a run that
    returns,
    a second run returns the same identifiers, writes no file and draws no
    key. *)
Theorem provisioning_without_mnemonic_idempotent (config : Config)
    (w : World) (r : string * cryptotypes_PubKey) :
  distinct_paths config ->
  (InitializeNodeValidatorFilesFromMnemonic config "" w).1 = Return r ->
  let w' := (InitializeNodeValidatorFilesFromMnemonic config "" w).2 in
  (InitializeNodeValidatorFilesFromMnemonic config "" w').1 = Return r /\
  files (InitializeNodeValidatorFilesFromMnemonic config "" w').2 = files w' /\
  entropy (InitializeNodeValidatorFilesFromMnemonic config "" w').2
    = entropy w'.
Proof.
  intros Hdistinct Hr. cbv zeta.
  destruct (empty_mnemonic_Return_state config w r Hdistinct Hr)
    as (k & addr & pub & priv & height & round & step & Hstate).
  destruct Hstate as (? & ? & ? & ? & ? & ? & ?).
  by eapply reload_identity.
Qed.

(** X11: an identity provisioned from a phrase is the one later runs without
    mnemonic load: such a run returns the identifiers the run with the
    phrase returned, writes no file and draws no key. *)
Theorem mnemonic_identity_loaded_by_later_runs (config : Config)
    (mnemonic : string) (w : World) (r : string * cryptotypes_PubKey) :
  distinct_paths config -> mnemonic <> "" ->
  (InitializeNodeValidatorFilesFromMnemonic config mnemonic w).1 = Return r ->
  let w' := (InitializeNodeValidatorFilesFromMnemonic config mnemonic w).2 in
  (InitializeNodeValidatorFilesFromMnemonic config "" w').1 = Return r /\
  files (InitializeNodeValidatorFilesFromMnemonic config "" w').2 = files w' /\
  entropy (InitializeNodeValidatorFilesFromMnemonic config "" w').2
    = entropy w'.
Proof.
  intros (Hnk & Hns & Hks) Hne Hr. cbv zeta.
  destruct (mnemonic_run_Return config mnemonic w r Hne Hr)
    as (_ & Hid & Hpk & Hfiles & _).
  destruct (run_frame config mnemonic w) as (_ & _ & _ & _ & _ & Hdirs).
  destruct (Hdirs r Hr) as [Hd1 Hd2].
  apply (reload_identity config _ r (GenPrivKeyFromSecret mnemonic)
           (PubKey_Address (PrivKey_PubKey (GenPrivKeyFromSecret mnemonic)))
           (PrivKey_PubKey (GenPrivKeyFromSecret mnemonic))
           (GenPrivKeyFromSecret mnemonic) 0 0 stepNone).
  - rewrite Hfiles. do 2 rewrite lookup_insert_ne by done.
    apply lookup_insert_eq.
  - rewrite Hfiles. rewrite lookup_insert_ne by done. apply lookup_insert_eq.
  - rewrite Hfiles. apply lookup_insert_eq.
  - exact Hd1.
  - exact Hd2.
  - exact Hid.
  - exact Hpk.
Qed.

Lemma WriteFile_cases_strong path content w :
  ((path ∉ denied w) /\ is_Some (dirs w !! filepath_Dir path) /\
   WriteFile path content w
     = (Return tt,
        set_files (<[path := content]> (files w))
          (log (EvWriteFile path content) w))) \/
  WriteFile path content w
    = (Fail (FilesystemFailure path), log (EvWriteFile path content) w).
Proof.
  unfold WriteFile. simpl. case_bool_decide; [by right|].
  destruct (dirs w !! filepath_Dir path) eqn:Hd; simpl; [|by right].
  left. split_and!; eauto.
Qed.

(** A run with a phrase that returns could write its three files. *)
Lemma mnemonic_run_Return_writable config mnemonic w r :
  mnemonic <> "" ->
  (InitializeNodeValidatorFilesFromMnemonic config mnemonic w).1 = Return r ->
  (NodeKeyFile config ∉ denied w) /\
  is_Some (dirs w !! filepath_Dir (NodeKeyFile config)) /\
  (PrivValidatorKeyFile config ∉ denied w) /\
  (PrivValidatorStateFile config ∉ denied w).
Proof.
  intros Hne. destruct mnemonic as [|c rest]; [done|]. clear Hne.
  unfold InitializeNodeValidatorFilesFromMnemonic, NodeKey_SaveAs,
    FilePV_Save, FilePV_GetPubKey, cryptocodec_FromTmPubKeyInterface, NewFilePV,
    NodeKey_ID, must, bind, ret, fail.
  simpl.
  destruct (IsMnemonicValid _); simpl; [| discriminate].
  repeat (match goal with
          | |- context [WriteFile ?p ?c0 ?w0] =>
              destruct (WriteFile_cases_strong p c0 w0)
                as [(? & ? & ->) | ->]
          | |- context [EnsureDir ?d ?m ?w0] =>
              destruct (EnsureDir_cases d m w0)
                as [[_ ->] | [(? & _ & _ & _ & ->) | [_ ->]]]
          end; simpl; try discriminate).
  all: intros _; simpl in *; done.
Qed.

(** A run with a valid phrase returns when its paths can be written, the
    directories exist and the codec takes the derived public key. *)
Lemma mnemonic_returns config mnemonic w pk :
  mnemonic <> "" -> IsMnemonicValid mnemonic = true ->
  NodeKeyFile config ∉ denied w ->
  is_Some (dirs w !! filepath_Dir (NodeKeyFile config)) ->
  PrivValidatorKeyFile config ∉ denied w ->
  PrivValidatorStateFile config ∉ denied w ->
  is_Some (dirs w !! filepath_Dir (PrivValidatorKeyFile config)) ->
  is_Some (dirs w !! filepath_Dir (PrivValidatorStateFile config)) ->
  FromTmPubKeyInterface (PrivKey_PubKey (GenPrivKeyFromSecret mnemonic))
    = Some pk ->
  (InitializeNodeValidatorFilesFromMnemonic config mnemonic w).1
    = Return (PubKeyToID (PrivKey_PubKey (GenPrivKeyFromSecret mnemonic)), pk).
Proof.
  intros Hne Hv Hn Hnd Hk Hs Hkd Hsd Hpk.
  destruct mnemonic as [|c rest]; [done|]. clear Hne.
  unfold InitializeNodeValidatorFilesFromMnemonic, NodeKey_SaveAs,
    FilePV_Save, FilePV_GetPubKey, cryptocodec_FromTmPubKeyInterface, NewFilePV,
    NodeKey_ID, must, bind, ret, fail.
  simpl. rewrite Hv. simpl.
  rewrite WriteFile_ok by done. simpl.
  rewrite EnsureDir_exists by done. simpl.
  rewrite EnsureDir_exists by done. simpl.
  rewrite WriteFile_ok by done. simpl.
  rewrite WriteFile_ok by done. simpl.
  by rewrite Hpk.
Qed.

(** X12: provisioning with a phrase is idempotent: after a run that returns, a
    second run with the same phrase returns the same identifiers and leaves
    every file as the first run left it. *)
Theorem provisioning_with_mnemonic_idempotent (config : Config)
    (mnemonic : string) (w : World) (r : string * cryptotypes_PubKey) :
  mnemonic <> "" ->
  (InitializeNodeValidatorFilesFromMnemonic config mnemonic w).1 = Return r ->
  let w' := (InitializeNodeValidatorFilesFromMnemonic config mnemonic w).2 in
  (InitializeNodeValidatorFilesFromMnemonic config mnemonic w').1 = Return r /\
  files (InitializeNodeValidatorFilesFromMnemonic config mnemonic w').2
    = files w'.
Proof.
  intros Hne Hr. cbv zeta.
  destruct (mnemonic_run_Return config mnemonic w r Hne Hr)
    as (Hv & Hid & Hpk & Hfiles & _).
  destruct (mnemonic_run_Return_writable config mnemonic w r Hne Hr)
    as (Hn & Hnd & Hk & Hs).
  destruct (run_frame config mnemonic w) as (_ & _ & Hmono & Hden & _ & Hdirs).
  destruct (Hdirs r Hr) as [Hd1 Hd2].
  assert ((InitializeNodeValidatorFilesFromMnemonic config mnemonic
             (InitializeNodeValidatorFilesFromMnemonic config mnemonic w).2).1
          = Return r) as Hr2.
  { rewrite (mnemonic_returns config mnemonic _ r.2); try done.
    - destruct r; simpl in *. by rewrite Hid.
    - by rewrite Hden.
    - by apply Hmono.
    - by rewrite Hden.
    - by rewrite Hden. }
  split; [exact Hr2|].
  destruct (mnemonic_run_Return config mnemonic _ r Hne Hr2)
    as (_ & _ & _ & Hfiles2 & _).
  rewrite Hfiles2, Hfiles. apply map_eq. intros path.
  rewrite !lookup_insert. repeat case_decide; done.
Qed.

End ProvisioningFacts.

(** ** Provisioning at concrete inputs *)

Section ProvisioningWitnesses.
Import Genutil Spec Sample.
Local Open Scope Z_scope.
Local Existing Instance collaborators.

Lemma sample_provisioned : provisioned config running.
Proof. split; by_evaluation. Qed.

(** C2 on a phrase of two words, over the running node. *)
Lemma invalid_mnemonic_fails_without_writes_witness :
  let run :=
    InitializeNodeValidatorFilesFromMnemonic config "abandon abandon" running in
  IsMnemonicValid "abandon abandon" = false /\
  run.1 = Fail InvalidMnemonic /\ run.2 = running /\
  files run.2 = files running /\ dirs run.2 = dirs running /\
  trace run.2 = trace running.
Proof.
  cbv zeta. split; [reflexivity|].
  apply (invalid_mnemonic_fails_without_writes config "abandon abandon"
           running); [discriminate | reflexivity].
Defined.

(** C1 as stated fails: on the running node, whose two key files exist, a
    call with a valid phrase returns the identifiers derived from the phrase
    and replaces the content of both key files. *)
Lemma mnemonic_overwrites_identity_files :
  let run := InitializeNodeValidatorFilesFromMnemonic config mnemonic2 running in
  provisioned config running /\
  IsMnemonicValid mnemonic2 = true /\
  files running !! NodeKeyFile config = Some (NodeKeyJSON "old-node-key") /\
  files run.2 !! NodeKeyFile config
    = Some (NodeKeyJSON ("priv:" +:+ mnemonic2)) /\
  files running !! PrivValidatorKeyFile config
    = Some (FilePVKeyJSON "addr:pub:old-validator-key" "pub:old-validator-key"
              "old-validator-key") /\
  files run.2 !! PrivValidatorKeyFile config
    = Some (validator_key_file ("priv:" +:+ mnemonic2)) /\
  run.1 = Return ("id:pub:priv:" +:+ mnemonic2, "pub:priv:" +:+ mnemonic2) /\
  ~ identity_kept config running run.2.
Proof.
  cbv zeta. split_and!; try (vm_compute; reflexivity).
  - exact sample_provisioned.
  - intros [Hnode _]. vm_compute in Hnode. discriminate.
Qed.

(** C1, as amended, on the running node: without mnemonic nothing changes
    and the stored identity is returned; with the second phrase the files
    hold the derived key. *)
Lemma provisioned_identity_kept_without_mnemonic_witness :
  provisioned config running /\
  files (InitializeNodeValidatorFilesFromMnemonic config "" running).2
    = files running /\
  (InitializeNodeValidatorFilesFromMnemonic config "" running).1
    = Return ("id:pub:old-node-key", "pub:old-validator-key") /\
  files (InitializeNodeValidatorFilesFromMnemonic config mnemonic2 running).2
    = <[PrivValidatorStateFile config := initial_sign_state]>
        (<[PrivValidatorKeyFile config :=
             validator_key_file (GenPrivKeyFromSecret mnemonic2)]>
           (<[NodeKeyFile config :=
                NodeKeyJSON (GenPrivKeyFromSecret mnemonic2)]>
              (files running))).
Proof.
  split; [exact sample_provisioned|].
  destruct (provisioned_identity_kept_without_mnemonic config "" running
              sample_provisioned) as [Hempty _].
  destruct (Hempty eq_refl) as (Hfiles & _ & _ & Hreturns).
  split; [exact Hfiles|]. split.
  - apply (Hreturns "old-node-key" "addr:pub:old-validator-key"
             "pub:old-validator-key" "old-validator-key" 42 0 3);
      solve [reflexivity | by_evaluation].
  - destruct (provisioned_identity_kept_without_mnemonic config mnemonic2
                running sample_provisioned) as [_ Hphrase].
    destruct (Hphrase ltac:(discriminate)
                ("id:pub:priv:" +:+ mnemonic2, "pub:priv:" +:+ mnemonic2)
                ltac:(vm_compute; reflexivity)) as (_ & _ & _ & Hfiles').
    exact Hfiles'.
Defined.

(** C5 as stated fails: on the running node, whose validator key file
    exists and whose signing state stands at height 42, a call with a valid
    phrase resets the signing state to height 0. *)
Lemma mnemonic_resets_sign_state :
  let run := InitializeNodeValidatorFilesFromMnemonic config mnemonic2 running in
  is_Some (files running !! PrivValidatorKeyFile config) /\
  IsMnemonicValid mnemonic2 = true /\
  files running !! PrivValidatorStateFile config
    = Some (LastSignStateJSON 42 0 3) /\
  files run.2 !! PrivValidatorStateFile config
    = Some (LastSignStateJSON 0 0 0) /\
  files run.2 !! PrivValidatorStateFile config
    <> files running !! PrivValidatorStateFile config.
Proof.
  cbv zeta. split_and!; try (vm_compute; reflexivity).
  - by_evaluation.
  - vm_compute. discriminate.
Qed.

(** C5, as amended, on the running node without mnemonic and with the
    second phrase, and on the fresh node without mnemonic. *)
Lemma sign_state_kept_without_mnemonic_witness :
  files (InitializeNodeValidatorFilesFromMnemonic config "" running).2
    !! PrivValidatorStateFile config = Some (LastSignStateJSON 42 0 3) /\
  files (InitializeNodeValidatorFilesFromMnemonic config "" fresh).2
    !! PrivValidatorStateFile config = Some initial_sign_state /\
  files (InitializeNodeValidatorFilesFromMnemonic config mnemonic2 running).2
    !! PrivValidatorStateFile config = Some initial_sign_state.
Proof.
  split_and!.
  - destruct (sign_state_kept_without_mnemonic config "" running)
      as (Hkept & _ & _).
    apply Hkept; solve [reflexivity | by_evaluation].
  - destruct (sign_state_kept_without_mnemonic config "" fresh)
      as (_ & Hnew & _).
    apply (Hnew eq_refl eq_refl ("id:pub:random-key-1", "pub:random-key-2")).
    vm_compute. reflexivity.
  - destruct (sign_state_kept_without_mnemonic config mnemonic2 running)
      as (_ & _ & Hreset).
    apply (Hreset ltac:(discriminate)
             ("id:pub:priv:" +:+ mnemonic2, "pub:priv:" +:+ mnemonic2)).
    vm_compute. reflexivity.
Defined.

(** C7 as stated fails: on the fresh node the data directory is missing and
    the call asks for it with mode [0777], which restricts nothing; under
    the umask [022] the directory gets [0755], which lets the group and
    others read and search it. *)
Lemma data_directory_created_with_mode_0777 :
  let run := InitializeNodeValidatorFilesFromMnemonic config "" fresh in
  filepath_Dir (PrivValidatorStateFile config) = "/node/data" /\
  dirs fresh !! "/node/data" = None /\
  run.1 = Return ("id:pub:random-key-1", "pub:random-key-2") /\
  trace run.2 =
    [ EvWriteFile "/node/data/priv_validator_state.json"
        (LastSignStateJSON 0 0 0);
      EvWriteFile "/node/config/priv_validator_key.json"
        (FilePVKeyJSON "addr:pub:random-key-2" "pub:random-key-2"
           "random-key-2");
      EvMkdirAll "/node/data" mode_0777;
      EvMkdirAll "/node/config" mode_0777;
      EvWriteFile "/node/config/node_key.json" (NodeKeyJSON "random-key-1") ] /\
  Z.land mode_0777 0x3f = 0x3f /\
  ~ restrictive mode_0777 /\
  umask fresh = 0x12 /\
  dirs run.2 !! "/node/data" = Some 0x1ed /\
  ~ restrictive 0x1ed.
Proof.
  cbv zeta. split_and!; try (vm_compute; reflexivity);
    unfold restrictive; vm_compute; discriminate.
Qed.

(** C10 on the fresh node with the second phrase. *)
Lemma mnemonic_keys_identical_witness :
  let k := "priv:" +:+ mnemonic2 in
  IsMnemonicValid mnemonic2 = true /\
  (InitializeNodeValidatorFilesFromMnemonic config mnemonic2 fresh).1
    = Return ("id:pub:" +:+ k, "pub:" +:+ k) /\
  files (InitializeNodeValidatorFilesFromMnemonic config mnemonic2 fresh).2
    !! PrivValidatorKeyFile config
    = Some (FilePVKeyJSON ("addr:pub:" +:+ k) ("pub:" +:+ k) k) /\
  files (InitializeNodeValidatorFilesFromMnemonic config mnemonic2 fresh).2
    !! NodeKeyFile config = Some (NodeKeyJSON k).
Proof.
  cbv zeta. split; [reflexivity|]. split; [vm_compute; reflexivity|].
  destruct (mnemonic_keys_identical config mnemonic2 fresh
              ("id:pub:priv:" +:+ mnemonic2, "pub:priv:" +:+ mnemonic2)
              ltac:(discriminate) eq_refl ltac:(vm_compute; reflexivity))
    as (_ & _ & _ & _ & _ & Hkey & Hnode).
  split; [apply Hkey | apply Hnode]; discriminate.
Defined.

End ProvisioningWitnesses.

(** ** Further properties at concrete inputs *)

Section FurtherWitnesses.
Import Genutil Spec Sample.
Local Open Scope Z_scope.
Local Existing Instance collaborators.

Lemma sample_distinct_paths : distinct_paths config.
Proof. split_and!; discriminate. Qed.

(** The first boot of the fresh node uses up its two random keys. *)
Lemma first_boot_draws_two_keys_witness :
  files fresh !! NodeKeyFile config = None /\
  files fresh !! PrivValidatorKeyFile config = None /\
  (InitializeNodeValidatorFilesFromMnemonic config "" fresh).1
    = Return ("id:pub:random-key-1", "pub:random-key-2") /\
  entropy (InitializeNodeValidatorFilesFromMnemonic config "" fresh).2 = [].
Proof.
  split; [reflexivity|]. split; [reflexivity|].
  assert ((InitializeNodeValidatorFilesFromMnemonic config "" fresh).1
          = Return ("id:pub:random-key-1", "pub:random-key-2")) as Hreturns
    by (vm_compute; reflexivity).
  split; [exact Hreturns|].
  destruct (first_boot_draws_two_keys config fresh
              ("id:pub:random-key-1", "pub:random-key-2")
              eq_refl eq_refl Hreturns)
    as (k1 & k2 & rest & Hdrawn & Hleft & _).
  rewrite Hleft. vm_compute in Hdrawn. by injection Hdrawn as _ _ <-.
Defined.


(** Two boots of the fresh node without mnemonic. *)
Lemma provisioning_without_mnemonic_idempotent_witness :
  let w' := (InitializeNodeValidatorFilesFromMnemonic config "" fresh).2 in
  distinct_paths config /\
  (InitializeNodeValidatorFilesFromMnemonic config "" w').1
    = Return ("id:pub:random-key-1", "pub:random-key-2") /\
  files (InitializeNodeValidatorFilesFromMnemonic config "" w').2 = files w' /\
  entropy (InitializeNodeValidatorFilesFromMnemonic config "" w').2
    = entropy w'.
Proof.
  cbv zeta. split; [exact sample_distinct_paths|].
  apply (provisioning_without_mnemonic_idempotent config fresh
           ("id:pub:random-key-1", "pub:random-key-2") sample_distinct_paths).
  vm_compute. reflexivity.
Defined.

(** The running node re-provisioned from the second phrase, then booted
    without mnemonic. *)
Lemma mnemonic_identity_loaded_by_later_runs_witness :
  let w' :=
    (InitializeNodeValidatorFilesFromMnemonic config mnemonic2 running).2 in
  (InitializeNodeValidatorFilesFromMnemonic config "" w').1
    = Return ("id:pub:priv:" +:+ mnemonic2, "pub:priv:" +:+ mnemonic2) /\
  files (InitializeNodeValidatorFilesFromMnemonic config "" w').2 = files w' /\
  entropy (InitializeNodeValidatorFilesFromMnemonic config "" w').2
    = entropy w'.
Proof.
  cbv zeta.
  apply (mnemonic_identity_loaded_by_later_runs config mnemonic2 running
           ("id:pub:priv:" +:+ mnemonic2, "pub:priv:" +:+ mnemonic2)
           sample_distinct_paths).
  - discriminate.
  - vm_compute. reflexivity.
Defined.

(** The fresh node provisioned twice from the first phrase. *)
Lemma provisioning_with_mnemonic_idempotent_witness :
  let w' :=
    (InitializeNodeValidatorFilesFromMnemonic config mnemonic1 fresh).2 in
  (InitializeNodeValidatorFilesFromMnemonic config mnemonic1 w').1
    = Return ("id:pub:priv:" +:+ mnemonic1, "pub:priv:" +:+ mnemonic1) /\
  files (InitializeNodeValidatorFilesFromMnemonic config mnemonic1 w').2
    = files w'.
Proof.
  cbv zeta.
  apply (provisioning_with_mnemonic_idempotent config mnemonic1 fresh
           ("id:pub:priv:" +:+ mnemonic1, "pub:priv:" +:+ mnemonic1)).
  - discriminate.
  - vm_compute. reflexivity.
Defined.

End FurtherWitnesses.
